(** * kibosh: the helm (tiller) installer

    A shallow embedding of [src/helm/installer.go] (package [helm]) and the
    properties of its [Install] operation: image resolution, the
    install-or-upgrade decision, the version comparison and the health
    polling loop.

    The collaborators of the installer (cluster accessor, helm client,
    private-registry setup, the clock) act on an abstract world; every
    call they receive is recorded in a trace, so that statements such as
    "no upgrade call is issued" are statements about the trace. *)

From Stdlib Require Import ZArith List String Ascii Bool Lia.
Import ListNotations.

Local Open Scope string_scope.
Local Open Scope Z_scope.

(** ** Go strings

    A Go string is a sequence of bytes; [string] (a list of [ascii]) is
    used for it, [++] for concatenation and [String.eqb] for [==]. *)

Module strings.

(** The walk of [strings.Split] for a non-empty separator: [acc] is the
    piece being collected, [skip] the number of separator bytes still to
    be stepped over after a match. *)
Fixpoint genSplit (sep : string) (skip : nat) (acc : string) (s : string)
  : list string :=
  match s with
  | EmptyString => [acc]
  | String c s' =>
      match skip with
      | S k => genSplit sep k acc s'
      | O =>
          if String.prefix sep s
          then acc :: genSplit sep (Nat.pred (String.length sep)) "" s'
          else genSplit sep 0 (acc ++ String c "") s'
      end
  end.

(** [strings.Split(s, sep)]: the pieces of [s] between the occurrences
    of [sep].  With an empty separator Go cuts after every UTF-8
    sequence; the bytes are cut one by one here (the installer only ever
    splits on [":"]). *)
Definition Split (s sep : string) : list string :=
  match sep with
  | EmptyString => map (fun c => String c "") (list_ascii_of_string s)
  | _ => genSplit sep 0 "" s
  end.

(** [s] holds no [':'] byte. *)
Fixpoint NoColon (s : string) : Prop :=
  match s with
  | EmptyString => True
  | String c s' => c <> ":"%char /\ NoColon s'
  end.

Fixpoint noColon (s : string) : bool :=
  match s with
  | EmptyString => true
  | String c s' => negb (Ascii.eqb c ":") && noColon s'
  end.

(** The version of a reference as the specification words it, to be
    compared with the segment [isNewerVersion] reads: the substring after
    the final [':'] of [s] ([None] without one); [cur] is the candidate
    found so far. *)
Fixpoint afterLastColonFrom (cur : option string) (s : string)
  : option string :=
  match s with
  | EmptyString => cur
  | String c s' =>
      if Ascii.eqb c ":"
      then afterLastColonFrom (Some s') s'
      else afterLastColonFrom cur s'
  end.

Definition afterLastColon (s : string) : option string :=
  afterLastColonFrom None s.

End strings.

(** ** Go errors and panics *)

(** The reason carried by a Kubernetes API status error
    ([k8s.io/apimachinery/pkg/apis/meta/v1]). *)
Inductive StatusReason :=
| StatusReasonUnknown
| StatusReasonAlreadyExists
| StatusReasonNotFound
| StatusReasonConflict
| StatusReasonForbidden
| StatusReasonTimeout.

(** Values of the Go interface [error] that reach the installer.  [nil] is
    [None] in an [option error]. *)
Inductive error :=
| StatusError (reason : StatusReason) (message : string)
    (** an [*apierrors.StatusError] *)
| errorString (message : string)
    (** [errors.New(message)] *)
| withMessage (cause : error) (message : string).
    (** [errors.Wrap(cause, message)] *)

Module errors.
Definition New (message : string) : error := errorString message.
Definition Wrap (err : error) (message : string) : error :=
  withMessage err message.
End errors.

Module apierrors.
(** [ReasonForError]: the reason of an API status error, unknown for
    every other error. *)
Definition ReasonForError (err : error) : StatusReason :=
  match err with
  | StatusError reason _ => reason
  | _ => StatusReasonUnknown
  end.

Definition IsAlreadyExists (err : error) : bool :=
  match ReasonForError err with
  | StatusReasonAlreadyExists => true
  | _ => false
  end.
End apierrors.

(** What a Go [panic] carries in this program. *)
Inductive PanicValue :=
| IndexOutOfRange (index len : nat)
    (** runtime error: index out of range *)
| PanicError (err : error).
    (** [panic(err)], as [semver.MustParse] does *)

(** A computation without side effects that may panic. *)
Inductive Result (A : Type) :=
| Value (a : A)
| Panics (p : PanicValue).
Arguments Value {A} a.
Arguments Panics {A} p.

Definition Result_bind {A B} (r : Result A) (k : A -> Result B) : Result B :=
  match r with
  | Value a => k a
  | Panics p => Panics p
  end.

(** [xs[i]] on a slice. *)
Definition index {A} (xs : list A) (i : nat) : Result A :=
  match nth_error xs i with
  | Some x => Value x
  | None => Panics (IndexOutOfRange i (List.length xs))
  end.

(** ** Fixed-width integers *)

(** A [time.Duration] is an [int64] count of nanoseconds. *)
Definition wrap64 (z : Z) : Z := (z + 2 ^ 63) mod 2 ^ 64 - 2 ^ 63.
Definition MaxInt64 : Z := 2 ^ 63 - 1.
Definition MinInt64 : Z := - 2 ^ 63.
Definition Second : Z := 1000000000.


(** ** Semantic versions

    Modelled from the spec: semantic-version parsing and ordering are an
    external collaborator (the library [github.com/Masterminds/semver]
    imported by [installer.go]); its sources are not part of the
    repository.  The model follows the 1.x release of that library: the
    anchored pattern

      v?([0-9]+)(\.[0-9]+)?(\.[0-9]+)?(-IDENTS)?(\+IDENTS)?

    where IDENTS is a dot-separated list of non-empty identifiers over
    [0-9A-Za-z-], and the ordering by major, minor, patch and then
    pre-release. *)

Module semver.

Record Version := mkVersion {
  major : Z;
  minor : Z;
  patch : Z;
  pre : string;
  metadata : string;
  original : string
}.

Definition ErrInvalidSemVer : error := errors.New "Invalid Semantic Version".
Definition ErrSegment : error := errors.New "Error parsing version segment".

Definition isDigit (c : ascii) : bool :=
  let n := nat_of_ascii c in (48 <=? n)%nat && (n <=? 57)%nat.

Definition isIdentChar (c : ascii) : bool :=
  let n := nat_of_ascii c in
  isDigit c
  || ((65 <=? n)%nat && (n <=? 90)%nat)
  || ((97 <=? n)%nat && (n <=? 122)%nat)
  || Ascii.eqb c "-".

(** The longest prefix of [s] whose bytes satisfy [p], and the rest. *)
Fixpoint span (p : ascii -> bool) (s : string) : string * string :=
  match s with
  | EmptyString => ("", "")
  | String c s' =>
      if p c
      then let (a, b) := span p s' in (String c a, b)
      else ("", s)
  end.

(** The value of a string of decimal digits. *)
Fixpoint digitsValue (acc : Z) (s : string) : Z :=
  match s with
  | EmptyString => acc
  | String c s' => digitsValue (10 * acc + (Z.of_nat (nat_of_ascii c) - 48)) s'
  end.

Definition allDigits (s : string) : bool :=
  match span isDigit s with
  | (EmptyString, _) => false
  | (_, EmptyString) => true
  | _ => false
  end.

(** [strconv.ParseInt(s, 10, 64)]: an optional sign and decimal digits,
    within the range of [int64]. *)
Definition ParseInt (s : string) : option Z :=
  let (neg, body) :=
    match s with
    | String "-" r => (true, r)
    | String "+" r => (false, r)
    | _ => (false, s)
    end in
  if allDigits body then
    let v := if neg then - digitsValue 0 body else digitsValue 0 body in
    if (MinInt64 <=? v) && (v <=? MaxInt64) then Some v else None
  else None.

(** A dot-separated list of non-empty identifiers; [atStart] says that the
    identifier being read is still empty. *)
Fixpoint identsFrom (atStart : bool) (s : string) : bool :=
  match s with
  | EmptyString => negb atStart
  | String c r =>
      if Ascii.eqb c "."
      then negb atStart && identsFrom true r
      else isIdentChar c && identsFrom false r
  end.

Definition isIdentsChar (c : ascii) : bool := isIdentChar c || Ascii.eqb c ".".

(** An optional [.digits] group: the digits ([""] when the group is
    absent) and the rest; [None] when a dot is not followed by a digit. *)
Definition dotSegment (s : string) : option (string * string) :=
  match s with
  | String "." r =>
      match span isDigit r with
      | (EmptyString, _) => None
      | (d, r') => Some (d, r')
      end
  | _ => Some ("", s)
  end.

(** An optional group opened by [mark] and holding identifiers. *)
Definition identsGroup (mark : ascii) (s : string) : option (string * string) :=
  match s with
  | String c r =>
      if Ascii.eqb c mark then
        let (ids, r') := span isIdentsChar r in
        if identsFrom true ids then Some (ids, r') else None
      else Some ("", s)
  | EmptyString => Some ("", s)
  end.

Definition segmentValue (digits : string) : option Z :=
  match digits with
  | EmptyString => Some 0
  | _ => ParseInt digits
  end.

(** [semver.NewVersion]. *)
Definition NewVersion (v : string) : Version + error :=
  let s0 := match v with String "v" r => r | _ => v end in
  match span isDigit s0 with
  | (EmptyString, _) => inr ErrInvalidSemVer
  | (maj, s1) =>
      match dotSegment s1 with
      | None => inr ErrInvalidSemVer
      | Some (mi, s2) =>
          match dotSegment s2 with
          | None => inr ErrInvalidSemVer
          | Some (pa, s3) =>
              match identsGroup "-" s3 with
              | None => inr ErrInvalidSemVer
              | Some (p, s4) =>
                  match identsGroup "+" s4 with
                  | Some (m, EmptyString) =>
                      match ParseInt maj, segmentValue mi, segmentValue pa with
                      | Some a, Some b, Some c =>
                          inl (mkVersion a b c p m v)
                      | _, _, _ => inr ErrSegment
                      end
                  | _ => inr ErrInvalidSemVer
                  end
              end
          end
      end
  end.

(** [semver.MustParse]: as [NewVersion], panicking on an error. *)
Definition MustParse (v : string) : Result Version :=
  match NewVersion v with
  | inl sv => Value sv
  | inr err => Panics (PanicError err)
  end.

Definition compareSegment (v o : Z) : Z :=
  if v <? o then -1 else if v >? o then 1 else 0.

Definition comparePrePart (s o : string) : Z :=
  if String.eqb s o then 0
  else if String.eqb s "" then -1
  else if String.eqb o "" then 1
  else
    match ParseInt o, ParseInt s with
    | None, None =>
        match String.compare s o with Gt => 1 | _ => -1 end
    | None, Some _ => -1
    | Some _, None => 1
    | Some oi, Some si => if si >? oi then 1 else -1
    end.

Fixpoint comparePrereleaseFrom (sparts oparts : list string) (l i : nat) : Z :=
  match l with
  | O => 0
  | S l' =>
      let d := comparePrePart (nth i sparts "") (nth i oparts "") in
      if d =? 0 then comparePrereleaseFrom sparts oparts l' (S i) else d
  end.

Definition comparePrerelease (v o : string) : Z :=
  let sparts := strings.Split v "." in
  let oparts := strings.Split o "." in
  comparePrereleaseFrom sparts oparts
    (Nat.max (List.length sparts) (List.length oparts)) 0.

(** [Version.Compare]. *)
Definition Compare (v o : Version) : Z :=
  let d := compareSegment (major v) (major o) in
  if negb (d =? 0) then d else
  let d := compareSegment (minor v) (minor o) in
  if negb (d =? 0) then d else
  let d := compareSegment (patch v) (patch o) in
  if negb (d =? 0) then d else
  let ps := pre v in
  let po := pre o in
  if String.eqb ps "" && String.eqb po "" then 0
  else if String.eqb ps "" then 1
  else if String.eqb po "" then -1
  else comparePrerelease ps po.

(** [Version.GreaterThan]. *)
Definition GreaterThan (v o : Version) : bool := Compare v o >? 0.

End semver.

(** ** The data the installer exchanges with its collaborators *)

(** [helmstaller.Options], the fields [Install] sets. *)
Record Options := mkOptions {
  Namespace : string;
  ImageSpec : string;
  ServiceAccount : string
}.

(** The path [obj.Spec.Template.Spec.Containers[0].Image] through a
    Kubernetes deployment object. *)
Record Container := mkContainer { Image : string }.
Record PodSpec := mkPodSpec { Containers : list Container }.
Record PodTemplateSpec := mkPodTemplateSpec { PodTemplateSpec_Spec : PodSpec }.
Record DeploymentSpec := mkDeploymentSpec { Template : PodTemplateSpec }.
Record Deployment := mkDeployment { Spec : DeploymentSpec }.

(** [config.RegistryConfig]: the server host is the only field the
    installer reads. *)
Record RegistryConfig := mkRegistryConfig { Server : string }.

(** Every call the installer makes on a collaborator, in order. *)
Inductive Call :=
| LoggerDebug (message : string)
| LoggerInfo (message : string)
| RegistrySetup (namespace serviceAccount : string) (registryConfig : RegistryConfig)
| ClientInstall (options : Options)
| ClusterGetDeployment (namespace name : string)
| ClientUpgrade (options : Options)
| ClientListReleases
| TimeSleep (d : Z).

Definition isClientInstall (c : Call) : bool :=
  match c with ClientInstall _ => true | _ => false end.
Definition isClientUpgrade (c : Call) : bool :=
  match c with ClientUpgrade _ => true | _ => false end.
Definition isGetDeployment (c : Call) : bool :=
  match c with ClusterGetDeployment _ _ => true | _ => false end.
Definition isListReleases (c : Call) : bool :=
  match c with ClientListReleases => true | _ => false end.
Definition isSleep (c : Call) : bool :=
  match c with TimeSleep _ => true | _ => false end.

(** How many calls of a trace satisfy [p]. *)
Definition countCalls (p : Call -> bool) (t : list Call) : nat :=
  List.length (filter p t).

(** The time spent in [time.Sleep] over a trace. *)
Fixpoint totalSleep (t : list Call) : Z :=
  match t with
  | [] => 0
  | TimeSleep d :: t' => d + totalSleep t'
  | _ :: t' => totalSleep t'
  end.

(** How a block of statements ends: it runs to its end with a value, it
    executes a [return], it panics, or the bound on loop iterations of
    the model is used up. *)
Inductive Outcome (R A : Type) :=
| Normal (a : A)
| Returned (r : R)
| Panicked (p : PanicValue)
| OutOfFuel.
Arguments Normal {R A} a.
Arguments Returned {R A} r.
Arguments Panicked {R A} p.
Arguments OutOfFuel {R A}.

Definition serviceAccount : string := "tiller".
Definition nameSpace : string := "kube-system".
Definition deploymentName : string := "tiller-deploy".

(** [isNewerVersion] (a method that reads nothing of its receiver). *)
Definition isNewerVersion (existingImage newImage : string) : Result bool :=
  let existingVersionSplit := strings.Split existingImage ":" in
  if (List.length existingVersionSplit <? 2)%nat then Value true else
  Result_bind (index existingVersionSplit 1) (fun existingVersion =>
  let newVersionSplit := strings.Split newImage ":" in
  if (List.length newVersionSplit <? 2)%nat then Value true else
  Result_bind (index newVersionSplit 1) (fun newVersion =>
  Result_bind (semver.MustParse newVersion) (fun n =>
  Result_bind (semver.MustParse existingVersion) (fun e =>
  Value (semver.GreaterThan n e))))).

(** [k8s.Cluster], the method the installer calls, over the world [W]
    the collaborators live in (the cluster, the tiller deployment, the
    clock).  The [meta_v1.GetOptions] argument, always empty, is left
    out. *)
Record Cluster (W : Type) := mkCluster {
  GetDeployment : string -> string -> W -> (Deployment + error) * W
}.
Arguments mkCluster {W} _.
Arguments GetDeployment {W} _ _ _ _.

(** [MyHelmClient], the methods the installer calls; the releases that
    [ListReleases] returns are dropped by the caller. *)
Record MyHelmClient (W : Type) := mkMyHelmClient {
  client_Install : Options -> W -> option error * W;
  client_Upgrade : Options -> W -> option error * W;
  ListReleases : W -> option error * W
}.
Arguments mkMyHelmClient {W} _ _ _.
Arguments client_Install {W} _ _ _.
Arguments client_Upgrade {W} _ _ _.
Arguments ListReleases {W} _ _.

(** The struct [installer].  Its field [logger] holds no state that
    [Install] reads: the calls on it are recorded in the trace. *)
Record installer (W : Type) := mkInstaller {
  maxWait : Z;
  registryConfig : RegistryConfig;
  cluster : Cluster W;
  client : MyHelmClient W
}.
Arguments mkInstaller {W} _ _ _ _.
Arguments maxWait {W} _.
Arguments registryConfig {W} _.
Arguments cluster {W} _.
Arguments client {W} _.

(** What [installer.go] takes from outside its file:
    [config.RegistryConfig.HasRegistryConfig],
    [k8s.NewPrivateRegistrySetup(ns, sa, cluster, config).Setup()] and
    [time.Sleep]. *)
Class Platform (W : Type) := mkPlatform {
  HasRegistryConfig : RegistryConfig -> bool;
  PrivateRegistrySetup :
    string -> string -> Cluster W -> RegistryConfig -> W -> option error * W;
  Sleep : Z -> W -> W
}.
Arguments mkPlatform {W} _ _ _.

Section Installer.

Context {W : Type} {P : Platform W}.

(** The package variable [tillerTag], the receiver [i] of the methods,
    the world and the calls made so far. *)
Record State := mkState {
  tillerTag : string;
  self : installer W;
  world : W;
  trace : list Call
}.

Definition M (R A : Type) : Type := State -> Outcome R A * State.

Definition ret {R A} (a : A) : M R A := fun s => (Normal a, s).

Definition bind {R A B} (m : M R A) (k : A -> M R B) : M R B :=
  fun s =>
    match m s with
    | (Normal a, s') => k a s'
    | (Returned r, s') => (Returned r, s')
    | (Panicked p, s') => (Panicked p, s')
    | (OutOfFuel, s') => (OutOfFuel, s')
    end.

(** The statement [return r]. *)
Definition Return {R A} (r : R) : M R A := fun s => (Returned r, s).

Definition outOfFuel {R A} : M R A := fun s => (OutOfFuel, s).

Definition gets {R A} (f : State -> A) : M R A := fun s => (Normal (f s), s).

(** A field of the receiver. *)
Definition field {R A} (f : installer W -> A) : M R A := gets (fun s => f (self s)).

Definition liftResult {R A} (r : Result A) : M R A :=
  fun s =>
    match r with
    | Value a => (Normal a, s)
    | Panics p => (Panicked p, s)
    end.

(** A call on a collaborator: it is recorded, and it answers and moves
    the world. *)
Definition invoke {R A} (c : Call) (f : W -> A * W) : M R A :=
  fun s =>
    let (a, w') := f (world s) in
    (Normal a, mkState (tillerTag s) (self s) w' (trace s ++ [c])).

(** A call of a function or method: its [return] ends the call, not the
    caller. *)
Definition call {R R'} (body : M R R) : M R' R :=
  fun s =>
    match body s with
    | (Normal a, s') => (Normal a, s')
    | (Returned r, s') => (Normal r, s')
    | (Panicked p, s') => (Panicked p, s')
    | (OutOfFuel, s') => (OutOfFuel, s')
    end.

Notation "x <- m ;; k" := (bind m (fun x => k))
  (at level 61, m at next level, right associativity).
Notation "m ;; k" := (bind m (fun _ => k))
  (at level 61, right associativity).

Definition logger_Debug {R} (message : string) : M R unit :=
  invoke (LoggerDebug message) (fun w => (tt, w)).
Definition logger_Info {R} (message : string) : M R unit :=
  invoke (LoggerInfo message) (fun w => (tt, w)).
Definition time_Sleep {R} (d : Z) : M R unit :=
  invoke (TimeSleep d) (fun w => (tt, Sleep d w)).

(** [NewInstaller]. *)
Definition NewInstaller (registryConfig : RegistryConfig) (cluster : Cluster W)
  (client : MyHelmClient W) : installer W :=
  mkInstaller (60 * Second) registryConfig cluster client.

(** [SetMaxWait]. *)
Definition SetMaxWait (wait : Z) : M unit unit :=
  fun s =>
    let i := self s in
    (Normal tt,
     mkState (tillerTag s)
       (mkInstaller wait (registryConfig i) (cluster i) (client i))
       (world s) (trace s)).

(** [helmHealthy]. *)
Definition helmHealthy : M bool bool :=
  c <- field client ;;
  err <- invoke ClientListReleases (ListReleases c) ;;
  Return (match err with None => true | Some _ => false end).

Definition deadlineExceeded : error :=
  errors.New "Didn't become healthy within max time".

(** The [for] loop of [Install]; [waited] is its local variable and
    [fuel] bounds the number of iterations of the model. *)
Fixpoint pollLoop (fuel : nat) (waited : Z) : M (option error) unit :=
  match fuel with
  | O => outOfFuel
  | S fuel' =>
      healthy <- call helmHealthy ;;
      if (healthy : bool) then ret tt else
      mw <- field maxWait ;;
      if waited >=? mw then Return (Some deadlineExceeded) else
      mw' <- field maxWait ;;
      let willWait := Z.quot mw' 10 in
      let waited := wrap64 (waited + willWait) in
      time_Sleep willWait ;;
      pollLoop fuel' waited
  end.

(** [Install]. *)
Definition Install (fuel : nat) : M (option error) unit :=
  tag <- gets tillerTag ;;
  logger_Debug ("Installing helm with Tiller version " ++ tag) ;;
  tag <- gets tillerTag ;;
  rc <- field registryConfig ;;
  tillerImage <-
    (if HasRegistryConfig rc then
       cl <- field cluster ;;
       rc <- field registryConfig ;;
       err <- invoke (RegistrySetup "kube-system" serviceAccount rc)
                (PrivateRegistrySetup "kube-system" serviceAccount cl rc) ;;
       match err with
       | Some e => Return (Some e)
       | None =>
           rc <- field registryConfig ;;
           tag <- gets tillerTag ;;
           ret (Server rc ++ "/tiller:" ++ tag)
       end
     else ret ("gcr.io/kubernetes-helm/tiller:" ++ tag)) ;;
  let options := mkOptions nameSpace tillerImage serviceAccount in
  c <- field client ;;
  err <- invoke (ClientInstall options) (client_Install c options) ;;
  match err with
  | Some err =>
      (if negb (apierrors.IsAlreadyExists err)
       then Return (Some (errors.Wrap err "Error installing new helm"))
       else ret tt) ;;
      cl <- field cluster ;;
      r <- invoke (ClusterGetDeployment nameSpace deploymentName)
             (GetDeployment cl nameSpace deploymentName) ;;
      match r with
      | inr err => Return (Some err)
      | inl obj =>
          first <- liftResult
                     (index (Containers (PodTemplateSpec_Spec (Template (Spec obj)))) 0) ;;
          let existingImage := Image first in
          (if String.eqb existingImage tillerImage then Return None else ret tt) ;;
          newer <- liftResult (isNewerVersion existingImage tillerImage) ;;
          (if negb newer then Return None else ret tt) ;;
          c <- field client ;;
          err <- invoke (ClientUpgrade options) (client_Upgrade c options) ;;
          match err with
          | Some err => Return (Some (errors.Wrap err "Error upgrading helm"))
          | None => ret tt
          end
      end
  | None => ret tt
  end ;;
  logger_Info "Waiting for tiller to become healthy" ;;
  pollLoop fuel 0 ;;
  Return None.

End Installer.

Arguments State W : clear implicits.
Arguments M W R A : clear implicits.

(** ** Vocabulary of the statements *)

Section Vocabulary.

Context {W : Type} {P : Platform W}.

(** The state [s] with another world and more calls on its trace. *)
Definition moved (s : State W) (w : W) (calls : list Call) : State W :=
  mkState (tillerTag s) (self s) w (trace s ++ calls).

Definition debugLine (s : State W) : Call :=
  LoggerDebug ("Installing helm with Tiller version " ++ tillerTag s).

Definition infoLine : Call :=
  LoggerInfo "Waiting for tiller to become healthy".

(** The image resolution of [Install] (its first statements, up to the
    install attempt) succeeded from [s]: it resolved the reference [image]
    and left the state [s1]. *)
Inductive Resolved (s : State W) : string -> State W -> Prop :=
| Resolved_public :
    HasRegistryConfig (registryConfig (self s)) = false ->
    Resolved s ("gcr.io/kubernetes-helm/tiller:" ++ tillerTag s)
      (moved s (world s) [debugLine s])
| Resolved_private w' :
    HasRegistryConfig (registryConfig (self s)) = true ->
    PrivateRegistrySetup "kube-system" serviceAccount (cluster (self s))
      (registryConfig (self s)) (world s) = (None, w') ->
    Resolved s (Server (registryConfig (self s)) ++ "/tiller:" ++ tillerTag s)
      (moved s w'
         [debugLine s;
          RegistrySetup "kube-system" serviceAccount (registryConfig (self s))]).

(** The options of the install attempt, and of the upgrade. *)
Definition optionsFor (image : string) : Options :=
  mkOptions nameSpace image serviceAccount.

Definition getDeploymentCall : Call :=
  ClusterGetDeployment nameSpace deploymentName.

(** The calls of the polling loop. *)
Definition isPollCall (c : Call) : bool := isListReleases c || isSleep c.

(** A computation only adds calls to the trace. *)
Definition appends {R A} (m : M W R A) : Prop :=
  forall s, exists calls, trace (snd (m s)) = (trace s ++ calls)%list.

(** What [Install] answers once its polling loop has ended as [r]: the
    loop left by [break] is followed by [return nil]. *)
Definition afterLoop (r : Outcome (option error) unit * State W)
  : Outcome (option error) unit * State W :=
  (match fst r with
   | Normal _ => Returned None
   | Returned e => Returned e
   | Panicked p => Panicked p
   | OutOfFuel => OutOfFuel
   end, snd r).

(** The health check never succeeds, whatever the world. *)
Definition neverHealthy (c : MyHelmClient W) : Prop :=
  forall w, fst (ListReleases c w) <> None.

(** [n] rounds of the polling loop with an unhealthy tiller, and the
    check that ends it. *)
Fixpoint pollCalls (n : nat) (d : Z) : list Call :=
  match n with
  | O => [ClientListReleases]
  | S n' => ClientListReleases :: TimeSleep d :: pollCalls n' d
  end.

(** The image that [Install] resolves in the state [s]. *)
Definition imageFor (s : State W) : string :=
  if HasRegistryConfig (registryConfig (self s))
  then Server (registryConfig (self s)) ++ "/tiller:" ++ tillerTag s
  else "gcr.io/kubernetes-helm/tiller:" ++ tillerTag s.

Definition setupCall (s : State W) : Call :=
  RegistrySetup "kube-system" serviceAccount (registryConfig (self s)).

Definition isLogLine (c : Call) : bool :=
  match c with
  | LoggerDebug _ | LoggerInfo _ => true
  | _ => false
  end.

(** The calls that act on the cluster: setup, install, fetch, upgrade. *)
Definition isStep (c : Call) : bool := negb (isLogLine c || isPollCall c).

(** The longest sequence of such calls that [Install] can make from [s]. *)
Definition stepsOf (s : State W) : list Call :=
  ((if HasRegistryConfig (registryConfig (self s)) then [setupCall s] else []) ++
   [ClientInstall (optionsFor (imageFor s)); getDeploymentCall;
    ClientUpgrade (optionsFor (imageFor s))])%list.

(** [calls] is the beginning of [full]. *)
Definition beginningOf (full calls : list Call) : Prop :=
  exists rest, full = (calls ++ rest)%list.

(** [n] rounds of the polling loop that is not over yet. *)
Fixpoint sleepRounds (n : nat) (d : Z) : list Call :=
  match n with
  | O => []
  | S n' => ClientListReleases :: TimeSleep d :: sleepRounds n' d
  end.

(** The ways through [Install], each with the answers of the
    collaborators that select it and with what [Install] then gives. *)
Inductive Path (fuel : nat) (s : State W)
  : Outcome (option error) unit * State W -> Prop :=
| Path_setup_fails e w' :
    HasRegistryConfig (registryConfig (self s)) = true ->
    PrivateRegistrySetup "kube-system" serviceAccount (cluster (self s))
      (registryConfig (self s)) (world s) = (Some e, w') ->
    Path fuel s (Returned (Some e), moved s w' [debugLine s; setupCall s])
| Path_fresh image s1 w2 :
    Resolved s image s1 ->
    client_Install (client (self s1)) (optionsFor image) (world s1) = (None, w2) ->
    Path fuel s
      (afterLoop (pollLoop fuel 0
         (moved s1 w2 [ClientInstall (optionsFor image); infoLine])))
| Path_install_fails image s1 e w2 :
    Resolved s image s1 ->
    client_Install (client (self s1)) (optionsFor image) (world s1) = (Some e, w2) ->
    apierrors.IsAlreadyExists e = false ->
    Path fuel s
      (Returned (Some (errors.Wrap e "Error installing new helm")),
       moved s1 w2 [ClientInstall (optionsFor image)])
| Path_fetch_fails image s1 e w2 e' w3 :
    Resolved s image s1 ->
    client_Install (client (self s1)) (optionsFor image) (world s1) = (Some e, w2) ->
    apierrors.IsAlreadyExists e = true ->
    GetDeployment (cluster (self s1)) nameSpace deploymentName w2 = (inr e', w3) ->
    Path fuel s
      (Returned (Some e'),
       moved s1 w3 [ClientInstall (optionsFor image); getDeploymentCall])
| Path_no_container image s1 e w2 obj w3 :
    Resolved s image s1 ->
    client_Install (client (self s1)) (optionsFor image) (world s1) = (Some e, w2) ->
    apierrors.IsAlreadyExists e = true ->
    GetDeployment (cluster (self s1)) nameSpace deploymentName w2 = (inl obj, w3) ->
    Containers (PodTemplateSpec_Spec (Template (Spec obj))) = [] ->
    Path fuel s
      (Panicked (IndexOutOfRange 0 0),
       moved s1 w3 [ClientInstall (optionsFor image); getDeploymentCall])
| Path_skips image s1 e w2 obj w3 first others :
    Resolved s image s1 ->
    client_Install (client (self s1)) (optionsFor image) (world s1) = (Some e, w2) ->
    apierrors.IsAlreadyExists e = true ->
    GetDeployment (cluster (self s1)) nameSpace deploymentName w2 = (inl obj, w3) ->
    Containers (PodTemplateSpec_Spec (Template (Spec obj))) = first :: others ->
    Image first = image \/ isNewerVersion (Image first) image = Value false ->
    Path fuel s
      (Returned None,
       moved s1 w3 [ClientInstall (optionsFor image); getDeploymentCall])
| Path_comparison_panics image s1 e w2 obj w3 first others p :
    Resolved s image s1 ->
    client_Install (client (self s1)) (optionsFor image) (world s1) = (Some e, w2) ->
    apierrors.IsAlreadyExists e = true ->
    GetDeployment (cluster (self s1)) nameSpace deploymentName w2 = (inl obj, w3) ->
    Containers (PodTemplateSpec_Spec (Template (Spec obj))) = first :: others ->
    Image first <> image ->
    isNewerVersion (Image first) image = Panics p ->
    Path fuel s
      (Panicked p,
       moved s1 w3 [ClientInstall (optionsFor image); getDeploymentCall])
| Path_upgrade_fails image s1 e w2 obj w3 first others e'' w4 :
    Resolved s image s1 ->
    client_Install (client (self s1)) (optionsFor image) (world s1) = (Some e, w2) ->
    apierrors.IsAlreadyExists e = true ->
    GetDeployment (cluster (self s1)) nameSpace deploymentName w2 = (inl obj, w3) ->
    Containers (PodTemplateSpec_Spec (Template (Spec obj))) = first :: others ->
    Image first <> image ->
    isNewerVersion (Image first) image = Value true ->
    client_Upgrade (client (self s1)) (optionsFor image) w3 = (Some e'', w4) ->
    Path fuel s
      (Returned (Some (errors.Wrap e'' "Error upgrading helm")),
       moved s1 w4 [ClientInstall (optionsFor image); getDeploymentCall;
                    ClientUpgrade (optionsFor image)])
| Path_upgrades image s1 e w2 obj w3 first others w4 :
    Resolved s image s1 ->
    client_Install (client (self s1)) (optionsFor image) (world s1) = (Some e, w2) ->
    apierrors.IsAlreadyExists e = true ->
    GetDeployment (cluster (self s1)) nameSpace deploymentName w2 = (inl obj, w3) ->
    Containers (PodTemplateSpec_Spec (Template (Spec obj))) = first :: others ->
    Image first <> image ->
    isNewerVersion (Image first) image = Value true ->
    client_Upgrade (client (self s1)) (optionsFor image) w3 = (None, w4) ->
    Path fuel s
      (afterLoop (pollLoop fuel 0
         (moved s1 w4 [ClientInstall (optionsFor image); getDeploymentCall;
                       ClientUpgrade (optionsFor image); infoLine]))).

(** [Install] from [s] gets to its polling loop, in the state [st]: after
    a fresh install, or after an upgrade. *)
Inductive Reaches (s : State W) : State W -> Prop :=
| Reaches_fresh image s1 w2 :
    Resolved s image s1 ->
    client_Install (client (self s1)) (optionsFor image) (world s1) = (None, w2) ->
    Reaches s (moved s1 w2 [ClientInstall (optionsFor image); infoLine])
| Reaches_upgraded image s1 e w2 obj w3 first others w4 :
    Resolved s image s1 ->
    client_Install (client (self s1)) (optionsFor image) (world s1) = (Some e, w2) ->
    apierrors.IsAlreadyExists e = true ->
    GetDeployment (cluster (self s1)) nameSpace deploymentName w2 = (inl obj, w3) ->
    Containers (PodTemplateSpec_Spec (Template (Spec obj))) = first :: others ->
    Image first <> image ->
    isNewerVersion (Image first) image = Value true ->
    client_Upgrade (client (self s1)) (optionsFor image) w3 = (None, w4) ->
    Reaches s
      (moved s1 w4 [ClientInstall (optionsFor image); getDeploymentCall;
                    ClientUpgrade (optionsFor image); infoLine]).

(** Rounds of the polling loop of the installer [i]: from the world [w]
    with [waited] accumulated, each round is a health check that fails in
    the world then current, before the deadline, and a sleep of one slice;
    the rounds make [calls] and leave [waited'] and the world [w']. *)
Inductive Rounds (i : installer W) : Z -> W -> list Call -> Z -> W -> Prop :=
| Rounds_done waited w : Rounds i waited w [] waited w
| Rounds_more waited w e w1 calls waited' w' :
    ListReleases (client i) w = (Some e, w1) ->
    waited < maxWait i ->
    Rounds i (wrap64 (waited + Z.quot (maxWait i) 10))
      (Sleep (Z.quot (maxWait i) 10) w1) calls waited' w' ->
    Rounds i waited w
      (ClientListReleases :: TimeSleep (Z.quot (maxWait i) 10) :: calls)
      waited' w'.

End Vocabulary.

(** ** A scripted world

    A world whose collaborators answer from a script; tiller becomes
    healthy once enough time has been slept, or never. *)

Module Scenario.

Record World := mkWorld {
  setupAnswer : option error;
  installAnswer : option error;
  deploymentAnswer : Deployment + error;
  upgradeAnswer : option error;
  healthyFrom : option Z;
  slept : Z
}.

Definition notReady : error := errors.New "tiller is not reachable".

Definition alreadyExists : error :=
  StatusError StatusReasonAlreadyExists "deployments tiller-deploy already exists".

Definition theCluster : Cluster World :=
  mkCluster (fun _ _ w => (deploymentAnswer w, w)).

Definition theClient : MyHelmClient World :=
  mkMyHelmClient
    (fun _ w => (installAnswer w, w))
    (fun _ w => (upgradeAnswer w, w))
    (fun w =>
       (match healthyFrom w with
        | Some t => if t <=? slept w then None else Some notReady
        | None => Some notReady
        end, w)).

#[global] Instance platform : Platform World :=
  mkPlatform
    (fun rc => negb (String.eqb (Server rc) ""))
    (fun _ _ _ _ w => (setupAnswer w, w))
    (fun d w =>
       mkWorld (setupAnswer w) (installAnswer w) (deploymentAnswer w)
         (upgradeAnswer w) (healthyFrom w) (slept w + d)).

Definition deploymentOf (images : list string) : Deployment :=
  mkDeployment (mkDeploymentSpec (mkPodTemplateSpec
    (mkPodSpec (map mkContainer images)))).

(** The state at the start of an [Install] call. *)
Definition start (tag : string) (wait : Z) (server : string) (w : World)
  : State World :=
  mkState tag
    (mkInstaller wait (mkRegistryConfig server) theCluster theClient) w [].

(** Tiller is deployed already with [image] and never answers. *)
Definition deployed (image : string) : World :=
  mkWorld None (Some alreadyExists) (inl (deploymentOf [image])) None None 0.

(** A client like [theClient] whose releases can never be listed. *)
Definition deadClient : MyHelmClient World :=
  mkMyHelmClient
    (fun _ w => (installAnswer w, w))
    (fun _ w => (upgradeAnswer w, w))
    (fun w => (Some notReady, w)).

(** Tiller is deployed with [image] and becomes healthy after [t]. *)
Definition recovering (image : string) (t : Z) : World :=
  mkWorld None (Some alreadyExists) (inl (deploymentOf [image])) None (Some t) 0.

(** The registry setup is refused. *)
Definition setupRefused : error := errors.New "cannot create the registry secret".

Definition noRegistry : World :=
  mkWorld (Some setupRefused) None
    (inr (StatusError StatusReasonNotFound "not found")) None None 0.

(** Nothing is deployed and tiller never answers. *)
Definition absent : World :=
  mkWorld None None (inr (StatusError StatusReasonNotFound "not found")) None None 0.

(** A fresh install on a cluster where tiller never answers, with the
    wait [wait]. *)
Definition stuck (wait : Z) : State World :=
  mkState "2.14.0"
    (mkInstaller wait (mkRegistryConfig "") theCluster deadClient) absent [].

(** Install calls over an existing deployment: of the resolved image, of
    a newer one, of an older one. *)
Definition current : State World :=
  start "2.14.0" (60 * Second) "" (deployed "gcr.io/kubernetes-helm/tiller:2.14.0").
Definition downgrade : State World :=
  start "1.9.0" (60 * Second) "" (deployed "gcr.io/kubernetes-helm/tiller:2.0.0").
Definition upgrade : State World :=
  start "1.1.0" (60 * Second) "" (deployed "gcr.io/kubernetes-helm/tiller:1.0.0").

(** An install call with a private registry whose setup is refused, and
    one whose setup succeeds. *)
Definition refused : State World :=
  start "2.14.0" (60 * Second) "registry.local" noRegistry.
Definition private : State World :=
  start "2.14.0" (60 * Second) "registry.local" absent.

(** Install calls that meet a failure: the install attempt is forbidden,
    the deployment fetch times out, the upgrade is forbidden, the deployment
    has no container. *)
Definition forbidden : error := StatusError StatusReasonForbidden "forbidden".
Definition timedOut : error := StatusError StatusReasonTimeout "timeout".

Definition installForbidden : State World :=
  start "2.14.0" (60 * Second) ""
    (mkWorld None (Some forbidden) (inr timedOut) None None 0).
Definition fetchTimesOut : State World :=
  start "2.14.0" (60 * Second) ""
    (mkWorld None (Some alreadyExists) (inr timedOut) None None 0).
Definition upgradeForbidden : State World :=
  start "2.14.0" (60 * Second) ""
    (mkWorld None (Some alreadyExists)
       (inl (deploymentOf ["gcr.io/kubernetes-helm/tiller:2.13.0"]))
       (Some forbidden) None 0).
Definition noContainer : State World :=
  start "2.14.0" (60 * Second) ""
    (mkWorld None (Some alreadyExists) (inl (deploymentOf [])) None None 0).

(** An installer as [NewInstaller] builds it, before a fresh install on
    a cluster where tiller never answers. *)
Definition defaults : State World :=
  mkState "2.14.0" (NewInstaller (mkRegistryConfig "") theCluster deadClient)
    absent [].

(** A fresh install on a cluster where tiller answers at once. *)
Definition healthy (wait : Z) : State World :=
  start "2.14.0" wait ""
    (mkWorld None None (inr timedOut) None (Some 0) 0).

(** Install calls with the private registry [host:5000] over a deployment
    from that registry: of a newer tag, of an older tag. *)
Definition portDowngrade : State World :=
  start "1.9.0" (60 * Second) "host:5000" (deployed "host:5000/tiller:2.0.0").
Definition portUpgrade : State World :=
  start "1.1.0" (60 * Second) "host:5000" (deployed "host:5000/tiller:1.0.0").

End Scenario.

(** * Properties *)

(** ** Splitting on [":"] *)

Lemma string_app_assoc (a b c : string) : ((a ++ b) ++ c = a ++ (b ++ c))%string.
Proof. induction a as [|x a IH]; simpl; [reflexivity | now rewrite IH]. Qed.

Lemma string_app_empty_r (a : string) : (a ++ "" = a)%string.
Proof. induction a as [|x a IH]; simpl; [reflexivity | now rewrite IH]. Qed.

Lemma prefix_colon (c : ascii) (s : string) :
  String.prefix ":" (String c s) = Ascii.eqb c ":".
Proof.
  cbn [String.prefix]. destruct (ascii_dec ":" c) as [<- | Hne].
  - destruct s; reflexivity.
  - symmetry. apply Ascii.eqb_neq. congruence.
Qed.

Lemma genSplit_colon_step (c : ascii) (s acc : string) :
  strings.genSplit ":" 0 acc (String c s) =
  if Ascii.eqb c ":"
  then acc :: strings.genSplit ":" 0 "" s
  else strings.genSplit ":" 0 (acc ++ String c "") s.
Proof.
  cbn [strings.genSplit]. rewrite prefix_colon. reflexivity.
Qed.

Lemma noColon_spec (s : string) : strings.noColon s = true <-> strings.NoColon s.
Proof.
  induction s as [|c s IH]; simpl; [tauto |].
  rewrite andb_true_iff, negb_true_iff, Ascii.eqb_neq, IH. tauto.
Qed.

Lemma genSplit_NoColon (s acc : string) :
  strings.NoColon s -> strings.genSplit ":" 0 acc s = [(acc ++ s)%string].
Proof.
  revert acc. induction s as [|c s IH]; intros acc H.
  - simpl. now rewrite string_app_empty_r.
  - destruct H as [Hc Hs]. rewrite genSplit_colon_step.
    apply Ascii.eqb_neq in Hc. rewrite Hc, IH by assumption.
    now rewrite string_app_assoc.
Qed.

Lemma genSplit_upto_colon (a b acc : string) :
  strings.NoColon a ->
  strings.genSplit ":" 0 acc (a ++ String ":" b) =
  (acc ++ a)%string :: strings.genSplit ":" 0 "" b.
Proof.
  revert acc. induction a as [|c a IH]; intros acc H.
  - simpl append. rewrite genSplit_colon_step. simpl.
    now rewrite string_app_empty_r.
  - destruct H as [Hc Ha]. simpl append. rewrite genSplit_colon_step.
    apply Ascii.eqb_neq in Hc. rewrite Hc, IH by assumption.
    now rewrite string_app_assoc.
Qed.

(** A reference with exactly one [':'] splits into what precedes it and
    what follows it. *)
Lemma Split_repository_tag (repo tag : string) :
  strings.NoColon repo -> strings.NoColon tag ->
  strings.Split (repo ++ ":" ++ tag) ":" = [repo; tag].
Proof.
  intros Hr Ht. unfold strings.Split. simpl (":" ++ tag)%string.
  rewrite genSplit_upto_colon by assumption.
  now rewrite genSplit_NoColon.
Qed.

(** A reference without [':'] splits into itself. *)
Lemma Split_NoColon (s : string) :
  strings.NoColon s -> strings.Split s ":" = [s].
Proof. intros H. unfold strings.Split. now rewrite genSplit_NoColon. Qed.

Lemma afterLastColonFrom_NoColon (s : string) (cur : option string) :
  strings.NoColon s -> strings.afterLastColonFrom cur s = cur.
Proof.
  revert cur. induction s as [|c s IH]; intros cur H; [reflexivity |].
  destruct H as [Hc Hs]. simpl. apply Ascii.eqb_neq in Hc. rewrite Hc. now apply IH.
Qed.

Lemma afterLastColon_tag (front tag : string) :
  strings.NoColon tag ->
  strings.afterLastColon (front ++ ":" ++ tag) = Some tag.
Proof.
  intros Ht. unfold strings.afterLastColon. generalize (@None string).
  induction front as [|c front IH]; intros cur.
  - simpl. now apply afterLastColonFrom_NoColon.
  - simpl. destruct (Ascii.eqb c ":"); apply IH.
Qed.

(** On a reference with exactly one [':'] the segment that
    [isNewerVersion] reads is the substring after the final [':']. *)
Lemma second_segment_is_tag (repo tag : string) :
  strings.NoColon repo -> strings.NoColon tag ->
  index (strings.Split (repo ++ ":" ++ tag) ":") 1 = Value tag /\
  strings.afterLastColon (repo ++ ":" ++ tag) = Some tag.
Proof.
  intros Hr Ht. split.
  - now rewrite Split_repository_tag.
  - now apply afterLastColon_tag.
Qed.

(** ** The version comparison *)

(** With one [':'] on each side the comparison is the one of the two
    tags, the new one parsed first. *)
Lemma isNewerVersion_tags (repoE tagE repoN tagN : string) :
  strings.NoColon repoE -> strings.NoColon tagE ->
  strings.NoColon repoN -> strings.NoColon tagN ->
  isNewerVersion (repoE ++ ":" ++ tagE) (repoN ++ ":" ++ tagN) =
  Result_bind (semver.MustParse tagN) (fun n =>
  Result_bind (semver.MustParse tagE) (fun e =>
  Value (semver.GreaterThan n e))).
Proof.
  intros HrE HtE HrN HtN. unfold isNewerVersion.
  rewrite !Split_repository_tag by assumption. reflexivity.
Qed.

Lemma index_nth_error {A} (xs : list A) (i : nat) (x : A) :
  nth_error xs i = Some x ->
  index xs i = Value x /\ (List.length xs <? S i)%nat = false.
Proof.
  intros H. split.
  - unfold index. now rewrite H.
  - apply Nat.ltb_ge. apply Nat.le_succ_l. apply nth_error_Some. congruence.
Qed.

(** [isNewerVersion] once both references have a second segment. *)
Lemma isNewerVersion_segments (existingImage newImage ev nv : string) :
  nth_error (strings.Split existingImage ":") 1 = Some ev ->
  nth_error (strings.Split newImage ":") 1 = Some nv ->
  isNewerVersion existingImage newImage =
  Result_bind (semver.MustParse nv) (fun n =>
  Result_bind (semver.MustParse ev) (fun e =>
  Value (semver.GreaterThan n e))).
Proof.
  intros He Hn. unfold isNewerVersion.
  destruct (index_nth_error _ _ _ He) as [-> ->].
  destruct (index_nth_error _ _ _ Hn) as [-> ->].
  reflexivity.
Qed.

(** C3, at the failing input: on a reference with a registry port the
    segment that [isNewerVersion] reads is ["5000/tiller"], not the
    substring ["1.0.0"] after the final [':'], and the comparison of two
    such references panics in [semver.MustParse]; so does [Install] with
    the registry server ["host:5000"] over a deployment it made earlier. *)
Theorem C3_registry_port_segment :
  index (strings.Split "host:5000/tiller:1.0.0" ":") 1 = Value "5000/tiller" /\
  strings.afterLastColon "host:5000/tiller:1.0.0" = Some "1.0.0" /\
  isNewerVersion "host:5000/tiller:1.0.0" "host:5000/tiller:1.1.0" =
    Panics (PanicError semver.ErrInvalidSemVer) /\
  fst (Install 1 (Scenario.start "1.1.0" (60 * Second) "host:5000"
                    (Scenario.deployed "host:5000/tiller:1.0.0"))) =
    Panicked (PanicError semver.ErrInvalidSemVer).
Proof. repeat split; vm_compute; reflexivity. Qed.

(** C4 as stated fails: with the existing tag ["latest"], which is no
    semantic version, the comparison does not answer "newer"; it panics. *)
Lemma C4_unparsable_tag_panics :
  semver.NewVersion "latest" = inr semver.ErrInvalidSemVer /\
  isNewerVersion "gcr.io/kubernetes-helm/tiller:latest"
                 "gcr.io/kubernetes-helm/tiller:2.14.0" =
    Panics (PanicError semver.ErrInvalidSemVer) /\
  isNewerVersion "gcr.io/kubernetes-helm/tiller:latest"
                 "gcr.io/kubernetes-helm/tiller:2.14.0" <> Value true.
Proof.
  split; [vm_compute; reflexivity |].
  split; [vm_compute; reflexivity |].
  vm_compute. discriminate.
Qed.

(** C4, amended: the comparison answers "newer" and returns normally when
    the existing reference, or else the new one, has fewer than two
    colon-delimited parts; when both have a second part and one of these
    is refused by the semantic-version parser, the comparison panics with
    the parser's error (the new version is parsed first). *)
Theorem C4_fail_open_without_separator_only (existingImage newImage : string) :
  ((List.length (strings.Split existingImage ":") < 2)%nat ->
   isNewerVersion existingImage newImage = Value true) /\
  ((2 <= List.length (strings.Split existingImage ":"))%nat ->
   (List.length (strings.Split newImage ":") < 2)%nat ->
   isNewerVersion existingImage newImage = Value true) /\
  (forall ev nv err,
     nth_error (strings.Split existingImage ":") 1 = Some ev ->
     nth_error (strings.Split newImage ":") 1 = Some nv ->
     semver.NewVersion nv = inr err ->
     isNewerVersion existingImage newImage = Panics (PanicError err)) /\
  (forall ev nv n err,
     nth_error (strings.Split existingImage ":") 1 = Some ev ->
     nth_error (strings.Split newImage ":") 1 = Some nv ->
     semver.NewVersion nv = inl n ->
     semver.NewVersion ev = inr err ->
     isNewerVersion existingImage newImage = Panics (PanicError err)).
Proof.
  repeat split.
  - intros H. unfold isNewerVersion.
    apply Nat.ltb_lt in H. now rewrite H.
  - intros He Hn. unfold isNewerVersion.
    apply Nat.ltb_ge in He. rewrite He.
    destruct (nth_error (strings.Split existingImage ":") 1) as [ev|] eqn:E.
    + destruct (index_nth_error _ _ _ E) as [-> _]. cbn [Result_bind].
      apply Nat.ltb_lt in Hn. now rewrite Hn.
    + apply nth_error_None in E. apply Nat.ltb_ge in He. lia.
  - intros ev nv err He Hn Hp.
    rewrite (isNewerVersion_segments _ _ _ _ He Hn).
    unfold semver.MustParse. now rewrite Hp.
  - intros ev nv n err He Hn Hpn Hpe.
    rewrite (isNewerVersion_segments _ _ _ _ He Hn).
    unfold semver.MustParse. now rewrite Hpn, Hpe.
Qed.

Lemma C4_fail_open_without_separator_only_witness :
  isNewerVersion "tiller" "gcr.io/kubernetes-helm/tiller:2.14.0" = Value true /\
  isNewerVersion "gcr.io/kubernetes-helm/tiller:2.13.0" "tiller" = Value true /\
  isNewerVersion "tiller:2.13.0" "tiller:newest" =
    Panics (PanicError semver.ErrInvalidSemVer) /\
  isNewerVersion "tiller:latest" "tiller:2.14.0" =
    Panics (PanicError semver.ErrInvalidSemVer).
Proof.
  split; [| split; [| split]].
  - apply (proj1 (C4_fail_open_without_separator_only "tiller" _)).
    vm_compute. lia.
  - apply (proj1 (proj2 (C4_fail_open_without_separator_only _ "tiller"))).
    + vm_compute. lia.
    + vm_compute. lia.
  - apply (proj1 (proj2 (proj2
      (C4_fail_open_without_separator_only "tiller:2.13.0" "tiller:newest")))
      "2.13.0" "newest"); reflexivity.
  - apply (proj2 (proj2 (proj2
      (C4_fail_open_without_separator_only "tiller:latest" "tiller:2.14.0")))
      "latest" "2.14.0" (semver.mkVersion 2 14 0 "" "" "2.14.0"));
      reflexivity.
Defined.

(** ** Running [Install] *)

Section InstallProperties.

Context {W : Type} {P : Platform W}.

Ltac run1 :=
  cbv beta delta [Install bind gets field invoke logger_Debug logger_Info
                  time_Sleep call helmHealthy outOfFuel
                  ret Return liftResult moved debugLine optionsFor
                  getDeploymentCall infoLine] iota;
  cbn [tillerTag self world trace fst snd negb].

Ltac run := run1; repeat (progress run1).

Ltac run_in H :=
  cbv beta delta [moved debugLine optionsFor getDeploymentCall infoLine] iota in H;
  cbn [tillerTag self world trace fst snd] in H.

Ltac flat := repeat rewrite <- app_assoc; cbn [app].

(** The polling loop leaves the receiver and the tag alone, and adds only
    health checks and sleeps to the trace. *)
Lemma pollLoop_frame (fuel : nat) :
  forall (waited : Z) (s : State W),
  exists calls,
    trace (snd (pollLoop fuel waited s)) = (trace s ++ calls)%list /\
    forallb isPollCall calls = true /\
    self (snd (pollLoop fuel waited s)) = self s /\
    tillerTag (snd (pollLoop fuel waited s)) = tillerTag s.
Proof.
  induction fuel as [|fuel IH]; intros waited s.
  - exists []. cbn [pollLoop]. run. rewrite app_nil_r. repeat split.
  - cbn [pollLoop]. run.
    destruct (ListReleases (client (self s)) (world s)) as [[e|] w1]; run.
    + destruct (waited >=? maxWait (self s)); run.
      * exists [ClientListReleases]. repeat split.
      * match goal with
        | |- context [pollLoop fuel ?wd ?st] =>
            destruct (IH wd st) as (calls & Ht & Hp & Hs & Hg)
        end.
        exists (ClientListReleases :: TimeSleep (Z.quot (maxWait (self s)) 10) :: calls).
        rewrite Ht, Hs, Hg. run. flat. repeat split. exact Hp.
    + exists [ClientListReleases]. repeat split.
Qed.

(** *** The paths through [Install] after the image resolution *)

Section Paths.

Variables (fuel : nat) (s s1 : State W) (image : string).
Hypothesis Hres : Resolved s image s1.

Ltac resolve :=
  destruct Hres as [Hrc | w' Hrc Hsetup];
  repeat match goal with H : _ |- _ => progress run_in H end;
  run; rewrite Hrc; run; [| rewrite Hsetup; run].

Ltac step H := rewrite H; run.

(** The resolution leaves the receiver and the tag alone and makes no
    install, upgrade, fetch or polling call. *)
Lemma Resolved_frame :
  self s1 = self s /\ tillerTag s1 = tillerTag s /\
  exists calls,
    trace s1 = (trace s ++ calls)%list /\
    existsb (fun c => isClientInstall c || isClientUpgrade c
                      || isGetDeployment c || isPollCall c) calls = false.
Proof.
  destruct Hres; run; repeat split; eexists; split; reflexivity.
Qed.

(** The install attempt succeeds: the polling loop follows. *)
Lemma Install_fresh (w2 : W) :
  client_Install (client (self s1)) (optionsFor image) (world s1) = (None, w2) ->
  Install fuel s =
  afterLoop (pollLoop fuel 0
    (moved s1 w2 [ClientInstall (optionsFor image); infoLine])).
Proof.
  intros Hinst. resolve; step Hinst; unfold afterLoop; flat;
    match goal with
    | |- context [pollLoop fuel 0 ?st] => destruct (pollLoop fuel 0 st) as [[| | |] ?]
    end; reflexivity.
Qed.

(** The install attempt fails with something else than already-exists. *)
Lemma Install_install_fails (e : error) (w2 : W) :
  client_Install (client (self s1)) (optionsFor image) (world s1) = (Some e, w2) ->
  apierrors.IsAlreadyExists e = false ->
  Install fuel s =
  (Returned (Some (errors.Wrap e "Error installing new helm")),
   moved s1 w2 [ClientInstall (optionsFor image)]).
Proof.
  intros Hinst Hae. resolve; step Hinst; step Hae; flat; reflexivity.
Qed.

Section AlreadyExists.

Variables (e : error) (w2 : W).
Hypothesis Hinst :
  client_Install (client (self s1)) (optionsFor image) (world s1) = (Some e, w2).
Hypothesis Hae : apierrors.IsAlreadyExists e = true.

(** The deployment cannot be fetched. *)
Lemma Install_fetch_fails (e' : error) (w3 : W) :
  GetDeployment (cluster (self s1)) nameSpace deploymentName w2 = (inr e', w3) ->
  Install fuel s =
  (Returned (Some e'),
   moved s1 w3 [ClientInstall (optionsFor image); getDeploymentCall]).
Proof.
  intros Hget. resolve; step Hinst; step Hae; step Hget; flat; reflexivity.
Qed.

Section Fetched.

Variables (obj : Deployment) (w3 : W).
Hypothesis Hget :
  GetDeployment (cluster (self s1)) nameSpace deploymentName w2 = (inl obj, w3).

(** The fetched deployment has no container. *)
Lemma Install_no_container :
  Containers (PodTemplateSpec_Spec (Template (Spec obj))) = [] ->
  Install fuel s =
  (Panicked (IndexOutOfRange 0 0),
   moved s1 w3 [ClientInstall (optionsFor image); getDeploymentCall]).
Proof.
  intros Hc. resolve; step Hinst; step Hae; step Hget; step Hc; flat; reflexivity.
Qed.

Section FirstContainer.

Variables (first : Container) (others : list Container).
Hypothesis Hc :
  Containers (PodTemplateSpec_Spec (Template (Spec obj))) = first :: others.

(** The deployed image is the resolved one, or the resolved one is not
    newer: no upgrade, no polling. *)
Lemma Install_skips_upgrade :
  Image first = image \/ isNewerVersion (Image first) image = Value false ->
  Install fuel s =
  (Returned None,
   moved s1 w3 [ClientInstall (optionsFor image); getDeploymentCall]).
Proof.
  intros Hskip.
  assert (Hcases :
    String.eqb (Image first) image = true \/
    (String.eqb (Image first) image = false /\
     isNewerVersion (Image first) image = Value false)).
  { destruct (String.eqb_spec (Image first) image) as [Heq | Hne];
      [now left | right; split; [reflexivity | tauto]]. }
  clear Hskip.
  resolve; step Hinst; step Hae; step Hget; step Hc; cbn [index nth_error].
  all: destruct Hcases as [Heq | [Hne Hnew]];
    [ rewrite Heq | rewrite Hne, Hnew ]; flat; reflexivity.
Qed.

(** The comparison panics. *)
Lemma Install_comparison_panics (p : PanicValue) :
  Image first <> image ->
  isNewerVersion (Image first) image = Panics p ->
  Install fuel s =
  (Panicked p,
   moved s1 w3 [ClientInstall (optionsFor image); getDeploymentCall]).
Proof.
  intros Hne Hnew. apply String.eqb_neq in Hne.
  resolve; step Hinst; step Hae; step Hget; step Hc; cbn [index nth_error];
    rewrite Hne, Hnew; flat; reflexivity.
Qed.

Section Newer.

Hypothesis Hne : Image first <> image.
Hypothesis Hnew : isNewerVersion (Image first) image = Value true.

(** The upgrade fails. *)
Lemma Install_upgrade_fails (e'' : error) (w4 : W) :
  client_Upgrade (client (self s1)) (optionsFor image) w3 = (Some e'', w4) ->
  Install fuel s =
  (Returned (Some (errors.Wrap e'' "Error upgrading helm")),
   moved s1 w4 [ClientInstall (optionsFor image); getDeploymentCall;
                ClientUpgrade (optionsFor image)]).
Proof.
  intros Hup. apply String.eqb_neq in Hne.
  resolve; step Hinst; step Hae; step Hget; step Hc; cbn [index nth_error];
    rewrite Hne, Hnew; run; step Hup; flat; reflexivity.
Qed.

(** The upgrade succeeds: the polling loop follows. *)
Lemma Install_upgrades (w4 : W) :
  client_Upgrade (client (self s1)) (optionsFor image) w3 = (None, w4) ->
  Install fuel s =
  afterLoop (pollLoop fuel 0
    (moved s1 w4 [ClientInstall (optionsFor image); getDeploymentCall;
                  ClientUpgrade (optionsFor image); infoLine])).
Proof.
  intros Hup. apply String.eqb_neq in Hne.
  resolve; step Hinst; step Hae; step Hget; step Hc; cbn [index nth_error];
    rewrite Hne, Hnew; run; step Hup; unfold afterLoop; flat;
    match goal with
    | |- context [pollLoop fuel 0 ?st] => destruct (pollLoop fuel 0 st) as [[| | |] ?]
    end; reflexivity.
Qed.

End Newer.
End FirstContainer.
End Fetched.
End AlreadyExists.
End Paths.

(** Whatever happens after the resolution, the next call is the install
    attempt with the resolved image. *)
Lemma Install_trace_prefix (fuel : nat) (s s1 : State W) (image : string) :
  Resolved s image s1 ->
  exists rest,
    trace (snd (Install fuel s)) =
    (trace s1 ++ ClientInstall (optionsFor image) :: rest)%list.
Proof.
  intros Hres.
  destruct (client_Install (client (self s1)) (optionsFor image) (world s1))
    as [[e|] w2] eqn:Hinst.
  2:{ rewrite (Install_fresh fuel s s1 image Hres w2 Hinst). unfold afterLoop.
      cbn [snd].
      destruct (pollLoop_frame fuel 0
        (moved s1 w2 [ClientInstall (optionsFor image); infoLine]))
        as (calls & -> & _). run. flat. eauto. }
  destruct (apierrors.IsAlreadyExists e) eqn:Hae.
  2:{ rewrite (Install_install_fails fuel s s1 image Hres e w2 Hinst Hae).
      run. eauto. }
  destruct (GetDeployment (cluster (self s1)) nameSpace deploymentName w2)
    as [[obj|e'] w3] eqn:Hget.
  2:{ rewrite (Install_fetch_fails fuel s s1 image Hres e w2 Hinst Hae e' w3 Hget).
      run. eauto. }
  destruct (Containers (PodTemplateSpec_Spec (Template (Spec obj))))
    as [|first others] eqn:Hc.
  { rewrite (Install_no_container fuel s s1 image Hres e w2 Hinst Hae obj w3 Hget Hc).
    run. eauto. }
  destruct (String.eqb_spec (Image first) image) as [Heq | Hne].
  { rewrite (Install_skips_upgrade fuel s s1 image Hres e w2 Hinst Hae obj w3
               Hget first others Hc (or_introl Heq)).
    run. eauto. }
  destruct (isNewerVersion (Image first) image) as [[|]|p] eqn:Hnew.
  - destruct (client_Upgrade (client (self s1)) (optionsFor image) w3)
      as [[e''|] w4] eqn:Hup.
    + rewrite (Install_upgrade_fails fuel s s1 image Hres e w2 Hinst Hae obj w3
                 Hget first others Hc Hne Hnew e'' w4 Hup).
      run. eauto.
    + rewrite (Install_upgrades fuel s s1 image Hres e w2 Hinst Hae obj w3
                 Hget first others Hc Hne Hnew w4 Hup).
      unfold afterLoop. cbn [snd].
      destruct (pollLoop_frame fuel 0
        (moved s1 w4 [ClientInstall (optionsFor image); getDeploymentCall;
                      ClientUpgrade (optionsFor image); infoLine]))
        as (calls & -> & _). run. flat. eauto.
  - rewrite (Install_skips_upgrade fuel s s1 image Hres e w2 Hinst Hae obj w3
               Hget first others Hc (or_intror Hnew)).
    run. eauto.
  - rewrite (Install_comparison_panics fuel s s1 image Hres e w2 Hinst Hae obj w3
               Hget first others Hc p Hne Hnew).
    run. eauto.
Qed.

Lemma countCalls_app (p : Call -> bool) (a b : list Call) :
  countCalls p (a ++ b) = (countCalls p a + countCalls p b)%nat.
Proof. unfold countCalls. now rewrite filter_app, length_app. Qed.

Lemma filter_none (p q : Call -> bool) (calls : list Call) :
  (forall c, q c = true -> p c = false) ->
  forallb q calls = true -> filter p calls = [].
Proof.
  intros Hpq. induction calls as [|c calls IH]; [reflexivity |].
  cbn [forallb filter]. intros H. apply andb_true_iff in H as [Hc Hcs].
  rewrite (Hpq c Hc). now apply IH.
Qed.

Lemma filter_absent (p q : Call -> bool) (calls : list Call) :
  (forall c, p c = true -> q c = true) ->
  existsb q calls = false -> filter p calls = [].
Proof.
  intros Hpq. induction calls as [|c calls IH]; [reflexivity |].
  cbn [existsb filter]. intros H. apply orb_false_iff in H as [Hc Hcs].
  destruct (p c) eqn:Hp; [rewrite (Hpq c Hp) in Hc; discriminate |].
  now apply IH.
Qed.

Lemma poll_calls_are_no_upgrade (c : Call) :
  isPollCall c = true -> isClientInstall c || isClientUpgrade c = false.
Proof. destruct c; cbn; congruence. Qed.

(** ** The install-or-upgrade decision *)


(** X13: between references with exactly one [':'] each, when the install
    attempt hits already-exists, the deployed tag is 2.0.0 and the
    resolved tag is 1.9.0, [Install] returns success and issues no upgrade
    call. *)
Theorem Install_no_downgrade_one_colon (fuel : nat) (s s1 : State W)
  (image repoN repoE : string) (e : error) (w2 w3 : W) (obj : Deployment)
  (first : Container) (others : list Container) :
  Resolved s image s1 ->
  image = (repoN ++ ":1.9.0")%string -> strings.NoColon repoN ->
  client_Install (client (self s1)) (optionsFor image) (world s1) = (Some e, w2) ->
  apierrors.IsAlreadyExists e = true ->
  GetDeployment (cluster (self s1)) nameSpace deploymentName w2 = (inl obj, w3) ->
  Containers (PodTemplateSpec_Spec (Template (Spec obj))) = first :: others ->
  Image first = (repoE ++ ":2.0.0")%string -> strings.NoColon repoE ->
  fst (Install fuel s) = Returned None /\
  exists calls,
    trace (snd (Install fuel s)) = (trace s ++ calls)%list /\
    countCalls isClientUpgrade calls = 0%nat.
Proof.
  intros Hres Himg HrN Hinst Hae Hget Hc Hex HrE.
  assert (Hnew : isNewerVersion (Image first) image = Value false).
  { rewrite Hex, Himg.
    etransitivity;
      [apply (isNewerVersion_tags repoE "2.0.0" repoN "1.9.0");
       try assumption; apply noColon_spec; reflexivity |].
    vm_compute. reflexivity. }
  rewrite (Install_skips_upgrade fuel s s1 image Hres e w2 Hinst Hae obj w3
             Hget first others Hc (or_intror Hnew)).
  split; [reflexivity |].
  destruct Hres; run; eexists; flat; repeat split.
Qed.

(** X14: between references with exactly one [':'] each, when the install
    attempt hits already-exists, the deployed tag is 1.0.0 and the
    resolved tag is 1.1.0, the calls of [Install] that install or upgrade
    are exactly two, the install attempt and then one upgrade, and both
    carry the same options: namespace, service account and the newly
    resolved image. *)
Theorem Install_upgrades_once_one_colon (fuel : nat) (s s1 : State W)
  (image repoN repoE : string) (e : error) (w2 w3 : W) (obj : Deployment)
  (first : Container) (others : list Container) :
  Resolved s image s1 ->
  image = (repoN ++ ":1.1.0")%string -> strings.NoColon repoN ->
  client_Install (client (self s1)) (optionsFor image) (world s1) = (Some e, w2) ->
  apierrors.IsAlreadyExists e = true ->
  GetDeployment (cluster (self s1)) nameSpace deploymentName w2 = (inl obj, w3) ->
  Containers (PodTemplateSpec_Spec (Template (Spec obj))) = first :: others ->
  Image first = (repoE ++ ":1.0.0")%string -> strings.NoColon repoE ->
  exists calls,
    trace (snd (Install fuel s)) = (trace s ++ calls)%list /\
    filter (fun c => isClientInstall c || isClientUpgrade c) calls =
      [ClientInstall (mkOptions "kube-system" image "tiller");
       ClientUpgrade (mkOptions "kube-system" image "tiller")] /\
    countCalls isClientUpgrade calls = 1%nat.
Proof.
  intros Hres Himg HrN Hinst Hae Hget Hc Hex HrE.
  assert (Hnew : isNewerVersion (Image first) image = Value true).
  { rewrite Hex, Himg.
    etransitivity;
      [apply (isNewerVersion_tags repoE "1.0.0" repoN "1.1.0");
       try assumption; apply noColon_spec; reflexivity |].
    vm_compute. reflexivity. }
  assert (Hne : Image first <> image).
  { rewrite Hex, Himg. intros Heq.
    assert (HE := Split_repository_tag repoE "1.0.0" HrE
                    (proj1 (noColon_spec "1.0.0") eq_refl)).
    assert (HN := Split_repository_tag repoN "1.1.0" HrN
                    (proj1 (noColon_spec "1.1.0") eq_refl)).
    cbn [append] in HE, HN. rewrite Heq, HN in HE. congruence. }
  destruct (Resolved_frame s s1 image Hres) as (_ & _ & calls0 & Ht0 & Hq0).
  assert (H0 : forall p,
    (forall c, p c = true ->
       isClientInstall c || isClientUpgrade c || isGetDeployment c
       || isPollCall c = true) ->
    filter p calls0 = []).
  { intros p Hp. exact (filter_absent p _ calls0 Hp Hq0). }
  assert (H1 : filter (fun c => isClientInstall c || isClientUpgrade c) calls0 = []).
  { apply H0. intros c Hc'. now rewrite Hc'. }
  assert (H2 : filter isClientUpgrade calls0 = []).
  { apply H0. intros c Hc'. rewrite Hc'. now rewrite orb_true_r. }
  destruct (client_Upgrade (client (self s1)) (optionsFor image) w3)
    as [[e''|] w4] eqn:Hup.
  - rewrite (Install_upgrade_fails fuel s s1 image Hres e w2 Hinst Hae obj w3
               Hget first others Hc Hne Hnew e'' w4 Hup).
    cbn [snd]. unfold moved. cbn [trace]. rewrite Ht0.
    exists (calls0 ++ [ClientInstall (optionsFor image); getDeploymentCall;
                       ClientUpgrade (optionsFor image)])%list.
    split; [now rewrite app_assoc |]. split.
    + rewrite filter_app, H1. reflexivity.
    + rewrite countCalls_app. unfold countCalls at 1. rewrite H2. reflexivity.
  - rewrite (Install_upgrades fuel s s1 image Hres e w2 Hinst Hae obj w3
               Hget first others Hc Hne Hnew w4 Hup).
    unfold afterLoop. cbn [snd].
    match goal with
    | |- context [pollLoop fuel 0 ?st] =>
        destruct (pollLoop_frame fuel 0 st) as (calls & -> & Hp & _)
    end.
    pose proof (filter_none _ _ calls poll_calls_are_no_upgrade Hp) as Hnone.
    assert (Hzero : filter isClientUpgrade calls = []).
    { apply (filter_none isClientUpgrade isPollCall); [| exact Hp].
      intros c Hc'. destruct c; cbn in *; congruence. }
    unfold moved. cbn [trace]. rewrite Ht0.
    exists (calls0 ++ [ClientInstall (optionsFor image); getDeploymentCall;
                       ClientUpgrade (optionsFor image); infoLine] ++ calls)%list.
    split; [now rewrite !app_assoc |]. split.
    + rewrite !filter_app, H1, Hnone. reflexivity.
    + rewrite !countCalls_app. unfold countCalls. rewrite H2, Hzero. reflexivity.
Qed.

(** ** Image resolution and the registry setup *)

(** C7: when the private-registry setup fails, [Install] returns that
    very error, the receiver and the tag are as before, and the only calls
    made are the debug line and the setup itself: no install, upgrade,
    deployment fetch or health check. *)
Theorem C7_setup_failure_short_circuits (fuel : nat) (s : State W)
  (e : error) (w' : W) :
  HasRegistryConfig (registryConfig (self s)) = true ->
  PrivateRegistrySetup "kube-system" serviceAccount (cluster (self s))
    (registryConfig (self s)) (world s) = (Some e, w') ->
  fst (Install fuel s) = Returned (Some e) /\
  self (snd (Install fuel s)) = self s /\
  tillerTag (snd (Install fuel s)) = tillerTag s /\
  trace (snd (Install fuel s)) =
    (trace s ++
     [debugLine s;
      RegistrySetup "kube-system" serviceAccount (registryConfig (self s))])%list.
Proof.
  intros Hrc Hsetup. run. rewrite Hrc. run. rewrite Hsetup. run.
  flat. repeat split.
Qed.

(** C8: on every run of [Install] the install attempt carries the
    resolved image: without a registry configuration the public
    [gcr.io/kubernetes-helm/tiller:<tag>], and with one, once the setup
    has succeeded, [<server>/tiller:<tag>]. *)
Theorem C8_image_resolution (fuel : nat) (s : State W) :
  (HasRegistryConfig (registryConfig (self s)) = false ->
   exists rest,
     trace (snd (Install fuel s)) =
     (trace s ++
      debugLine s ::
      ClientInstall
        (mkOptions "kube-system"
           ("gcr.io/kubernetes-helm/tiller:" ++ tillerTag s) "tiller") ::
      rest)%list) /\
  (forall w',
   HasRegistryConfig (registryConfig (self s)) = true ->
   PrivateRegistrySetup "kube-system" serviceAccount (cluster (self s))
     (registryConfig (self s)) (world s) = (None, w') ->
   exists rest,
     trace (snd (Install fuel s)) =
     (trace s ++
      debugLine s ::
      RegistrySetup "kube-system" "tiller" (registryConfig (self s)) ::
      ClientInstall
        (mkOptions "kube-system"
           (Server (registryConfig (self s)) ++ "/tiller:" ++ tillerTag s)
           "tiller") ::
      rest)%list).
Proof.
  split.
  - intros Hrc.
    destruct (Install_trace_prefix fuel s _ _ (Resolved_public s Hrc))
      as (rest & Ht).
    exists rest. rewrite Ht. run. flat. reflexivity.
  - intros w' Hrc Hsetup.
    destruct (Install_trace_prefix fuel s _ _ (Resolved_private s w' Hrc Hsetup))
      as (rest & Ht).
    exists rest. rewrite Ht. run. flat. reflexivity.
Qed.

(** ** Errors *)

(** C9: after the image resolution, an install failure other than
    already-exists is returned wrapped as "Error installing new helm", a
    failure of the deployment fetch is returned as it is, and an upgrade
    failure is returned wrapped as "Error upgrading helm"; in each case
    the failing call is the last call of [Install], so no health check
    follows. *)
Theorem C9_error_taxonomy (fuel : nat) (s s1 : State W) (image : string) :
  Resolved s image s1 ->
  (forall e w2,
     client_Install (client (self s1)) (optionsFor image) (world s1) = (Some e, w2) ->
     apierrors.IsAlreadyExists e = false ->
     Install fuel s =
     (Returned (Some (errors.Wrap e "Error installing new helm")),
      moved s1 w2 [ClientInstall (optionsFor image)])) /\
  (forall e w2 e' w3,
     client_Install (client (self s1)) (optionsFor image) (world s1) = (Some e, w2) ->
     apierrors.IsAlreadyExists e = true ->
     GetDeployment (cluster (self s1)) nameSpace deploymentName w2 = (inr e', w3) ->
     Install fuel s =
     (Returned (Some e'),
      moved s1 w3 [ClientInstall (optionsFor image); getDeploymentCall])) /\
  (forall e w2 obj w3 first others e'' w4,
     client_Install (client (self s1)) (optionsFor image) (world s1) = (Some e, w2) ->
     apierrors.IsAlreadyExists e = true ->
     GetDeployment (cluster (self s1)) nameSpace deploymentName w2 = (inl obj, w3) ->
     Containers (PodTemplateSpec_Spec (Template (Spec obj))) = first :: others ->
     Image first <> image ->
     isNewerVersion (Image first) image = Value true ->
     client_Upgrade (client (self s1)) (optionsFor image) w3 = (Some e'', w4) ->
     Install fuel s =
     (Returned (Some (errors.Wrap e'' "Error upgrading helm")),
      moved s1 w4 [ClientInstall (optionsFor image); getDeploymentCall;
                   ClientUpgrade (optionsFor image)])).
Proof.
  intros Hres. repeat split.
  - intros. now apply (Install_install_fails fuel s s1 image Hres e w2).
  - intros. now apply (Install_fetch_fails fuel s s1 image Hres e w2).
  - intros. now apply (Install_upgrade_fails fuel s s1 image Hres e w2 H H0
                         obj w3 H1 first others).
Qed.

(** C10: in the already-exists branch the first container of the fetched
    deployment is read unguarded: when the deployment has no container,
    [Install] does not return at all, be it an error or success; it
    panics on the index 0 of an empty slice, right after the fetch. *)
Theorem C10_no_container_panics (fuel : nat) (s s1 : State W) (image : string)
  (e : error) (w2 w3 : W) (obj : Deployment) :
  Resolved s image s1 ->
  client_Install (client (self s1)) (optionsFor image) (world s1) = (Some e, w2) ->
  apierrors.IsAlreadyExists e = true ->
  GetDeployment (cluster (self s1)) nameSpace deploymentName w2 = (inl obj, w3) ->
  Containers (PodTemplateSpec_Spec (Template (Spec obj))) = [] ->
  fst (Install fuel s) = Panicked (IndexOutOfRange 0 0) /\
  (forall r, fst (Install fuel s) <> Returned r) /\
  trace (snd (Install fuel s)) =
    (trace s1 ++ [ClientInstall (optionsFor image); getDeploymentCall])%list.
Proof.
  intros Hres Hinst Hae Hget Hc.
  rewrite (Install_no_container fuel s s1 image Hres e w2 Hinst Hae obj w3 Hget Hc).
  repeat split. cbn [fst]. discriminate.
Qed.

(** ** The polling loop *)

Lemma wrap64_small (z : Z) : MinInt64 <= z <= MaxInt64 -> wrap64 z = z.
Proof.
  unfold wrap64, MinInt64, MaxInt64.
  change (2 ^ 63) with 9223372036854775808.
  change (2 ^ 64) with 18446744073709551616.
  intros H. rewrite Z.mod_small; lia.
Qed.

Lemma countCalls_pollCalls (n : nat) (d : Z) :
  countCalls isListReleases (pollCalls n d) = S n.
Proof.
  induction n as [|n IH]; [reflexivity |].
  unfold countCalls in *. cbn [pollCalls filter isListReleases List.length].
  now rewrite IH.
Qed.

Lemma totalSleep_pollCalls (n : nat) (d : Z) :
  totalSleep (pollCalls n d) = Z.of_nat n * d.
Proof.
  induction n as [|n IH]; [reflexivity |].
  cbn [pollCalls totalSleep]. rewrite IH. lia.
Qed.

(** With tiller never healthy, a loop that is [n] slices short of the
    deadline checks, sleeps [n] times and gives up at the next check. *)
Lemma pollLoop_unhealthy (n : nat) :
  forall (fuel : nat) (waited : Z) (s : State W),
  neverHealthy (client (self s)) ->
  0 < Z.quot (maxWait (self s)) 10 ->
  maxWait (self s) + Z.quot (maxWait (self s)) 10 <= MaxInt64 ->
  MinInt64 <= waited ->
  maxWait (self s) <= waited + Z.of_nat n * Z.quot (maxWait (self s)) 10
    < maxWait (self s) + Z.quot (maxWait (self s)) 10 ->
  (n < fuel)%nat ->
  fst (pollLoop fuel waited s) = Returned (Some deadlineExceeded) /\
  trace (snd (pollLoop fuel waited s)) =
    (trace s ++ pollCalls n (Z.quot (maxWait (self s)) 10))%list.
Proof.
  induction n as [|n IH]; intros fuel waited s Hnever Hd Hmax Hlow Hn Hfuel;
    (destruct fuel as [|fuel]; [lia |]);
    cbn [pollLoop]; run;
    pose proof (Hnever (world s)) as Hsick;
    destruct (ListReleases (client (self s)) (world s)) as [[e|] w1];
    try (cbn [fst] in Hsick; congruence); run.
  - replace (waited >=? maxWait (self s)) with true by (symmetry; lia).
    run. split; reflexivity.
  - replace (waited >=? maxWait (self s)) with false by (symmetry; nia).
    run. rewrite wrap64_small by (unfold MinInt64, MaxInt64 in *; nia).
    match goal with
    | |- context [pollLoop fuel ?wd ?st] =>
        destruct (IH fuel wd st) as [Ho Ht]; cbn [self]; try assumption; try lia
    end.
    rewrite Ho, Ht. run. flat. split; reflexivity.
Qed.

(** The loop's [return] is the one of [Install]: a fresh install over a
    tiller that never answers ends with the deadline error. *)
Lemma Install_fresh_gives_up (n fuel : nat) (s s1 : State W) (image : string)
  (w2 : W) :
  Resolved s image s1 ->
  client_Install (client (self s1)) (optionsFor image) (world s1) = (None, w2) ->
  neverHealthy (client (self s)) ->
  0 < Z.quot (maxWait (self s)) 10 ->
  maxWait (self s) + Z.quot (maxWait (self s)) 10 <= MaxInt64 ->
  maxWait (self s) <= Z.of_nat n * Z.quot (maxWait (self s)) 10
    < maxWait (self s) + Z.quot (maxWait (self s)) 10 ->
  (n < fuel)%nat ->
  fst (Install fuel s) = Returned (Some deadlineExceeded).
Proof.
  intros Hres Hinst Hnever Hd Hmax Hn Hfuel.
  rewrite (Install_fresh fuel s s1 image Hres w2 Hinst).
  destruct (Resolved_frame s s1 image Hres) as (Hself & _).
  unfold afterLoop. cbn [fst].
  assert (Hmoved :
    self (moved s1 w2 [ClientInstall (optionsFor image); infoLine]) = self s)
    by exact Hself.
  destruct (pollLoop_unhealthy n fuel 0
              (moved s1 w2 [ClientInstall (optionsFor image); infoLine]))
    as [Ho _].
  1-6: rewrite ?Hmoved; try assumption; try (unfold MinInt64; lia).
  rewrite Ho. reflexivity.
Qed.

(** With a positive wait below ten nanoseconds the slice is zero: the
    loop never reaches its deadline. *)
Lemma pollLoop_stalls (fuel : nat) (s : State W) :
  neverHealthy (client (self s)) ->
  0 < maxWait (self s) < 10 ->
  fst (pollLoop fuel 0 s) = OutOfFuel.
Proof.
  intros Hnever Hmw.
  assert (Hq : Z.quot (maxWait (self s)) 10 = 0) by (apply Z.quot_small; lia).
  revert s Hnever Hmw Hq. induction fuel as [|fuel IH]; intros s Hnever Hmw Hq;
    [reflexivity |].
  cbn [pollLoop]. run.
  pose proof (Hnever (world s)) as Hsick.
  destruct (ListReleases (client (self s)) (world s)) as [[e|] w1];
    try (cbn [fst] in Hsick; congruence); run.
  replace (0 >=? maxWait (self s)) with false by (symmetry; lia).
  run. rewrite Hq. change (wrap64 (0 + 0)) with 0.
  apply IH; assumption.
Qed.

(** C2, amended: with a health check that always fails and a wait of at
    least ten nanoseconds (the last slice not overflowing [int64]), the
    polling loop makes [n + 1] health checks and sleeps one slice of
    [maxWait / 10] after each of them but the last, where [n] is between
    10 and 19 and is 10 when [maxWait] is a multiple of ten; the time
    slept, [n] slices, is at least [maxWait] and less than [maxWait] plus
    one slice; then the deadline error is returned.  With a wait of zero
    or less there is one check and no sleep. *)
Theorem C2_polling_rounds (s : State W) :
  neverHealthy (client (self s)) ->
  (maxWait (self s) <= 0 ->
   forall fuel, (0 < fuel)%nat ->
     fst (pollLoop fuel 0 s) = Returned (Some deadlineExceeded) /\
     trace (snd (pollLoop fuel 0 s)) = (trace s ++ [ClientListReleases])%list) /\
  (10 <= maxWait (self s) ->
   maxWait (self s) + Z.quot (maxWait (self s)) 10 <= MaxInt64 ->
   exists n : nat,
     (10 <= n <= 19)%nat /\
     (maxWait (self s) mod 10 = 0 -> n = 10%nat) /\
     maxWait (self s) <= Z.of_nat n * Z.quot (maxWait (self s)) 10
       < maxWait (self s) + Z.quot (maxWait (self s)) 10 /\
     forall fuel, (n < fuel)%nat ->
       fst (pollLoop fuel 0 s) = Returned (Some deadlineExceeded) /\
       exists calls,
         trace (snd (pollLoop fuel 0 s)) = (trace s ++ calls)%list /\
         calls = pollCalls n (Z.quot (maxWait (self s)) 10) /\
         countCalls isListReleases calls = S n /\
         totalSleep calls = Z.of_nat n * Z.quot (maxWait (self s)) 10).
Proof.
  intros Hnever. split.
  - intros Hmw fuel Hfuel. destruct fuel as [|fuel]; [lia |].
    cbn [pollLoop]. run.
    pose proof (Hnever (world s)) as Hsick.
    destruct (ListReleases (client (self s)) (world s)) as [[e|] w1];
      try (cbn [fst] in Hsick; congruence); run.
    replace (0 >=? maxWait (self s)) with true by (symmetry; lia).
    run. split; reflexivity.
  - intros Hmw Hmax.
    set (mw := maxWait (self s)) in *.
    set (d := Z.quot mw 10) in *.
    assert (Hd : d = mw / 10) by (apply Z.quot_div_nonneg; lia).
    assert (Hdm : mw = 10 * d + mw mod 10)
      by (rewrite Hd; apply Z.div_mod; lia).
    pose proof (Z.mod_pos_bound mw 10 ltac:(lia)) as Hr.
    assert (Hdpos : 0 < d) by lia.
    set (q := (mw + d - 1) / d).
    assert (Hq1 : d * q <= mw + d - 1) by (apply Z.mul_div_le; lia).
    assert (Hq2 : mw + d - 1 < d * Z.succ q) by (apply Z.mul_succ_div_gt; lia).
    assert (Hq0 : 0 <= q) by (apply Z.div_pos; lia).
    exists (Z.to_nat q).
    rewrite Z2Nat.id by assumption.
    assert (Hq10 : 10 <= q) by nia.
    assert (Hq19 : q <= 19) by nia.
    split; [lia |]. split; [intros Hmod; assert (q = 10) by nia; lia |].
    split; [nia |].
    intros fuel Hfuel.
    destruct (pollLoop_unhealthy (Z.to_nat q) fuel 0 s) as [Ho Ht];
      fold mw; fold d; try assumption;
      try (unfold MinInt64; lia);
      try (rewrite Z2Nat.id by assumption; nia).
    fold mw in Ht. fold d in Ht.
    split; [exact Ho |].
    exists (pollCalls (Z.to_nat q) d).
    split; [exact Ht |]. split; [reflexivity |].
    split; [apply countCalls_pollCalls |].
    rewrite totalSleep_pollCalls, Z2Nat.id by assumption. reflexivity.
Qed.

End InstallProperties.

(** ** The theorems at work on the scripted world *)

Example semver_plain :
  semver.NewVersion "1.9.0" = inl (semver.mkVersion 1 9 0 "" "" "1.9.0").
Proof. vm_compute. reflexivity. Qed.

Example semver_prerelease :
  semver.NewVersion "v2.1-rc.1+b7" =
  inl (semver.mkVersion 2 1 0 "rc.1" "b7" "v2.1-rc.1+b7").
Proof. vm_compute. reflexivity. Qed.

Example semver_order :
  Result_bind (semver.MustParse "2.14.0") (fun n =>
  Result_bind (semver.MustParse "2.9.1") (fun e =>
  Value (semver.GreaterThan n e))) = Value true.
Proof. vm_compute. reflexivity. Qed.

Example split_registry_port :
  strings.Split "host:5000/tiller:1.0.0" ":" = ["host"; "5000/tiller"; "1.0.0"].
Proof. vm_compute. reflexivity. Qed.

(** An upgrade over a tiller that answers after 20 seconds: with the
    default wait of 60 seconds the slices are 6 seconds long, and the fifth
    health check succeeds. *)
Example upgrade_then_healthy :
  let r := Install 20 (Scenario.start "2.14.0" (60 * Second) ""
                         (Scenario.recovering "gcr.io/kubernetes-helm/tiller:2.13.0"
                            (20 * Second))) in
  fst r = Returned None /\
  countCalls isClientUpgrade (trace (snd r)) = 1%nat /\
  countCalls isListReleases (trace (snd r)) = 5%nat /\
  totalSleep (trace (snd r)) = 24 * Second.
Proof. repeat split; vm_compute; reflexivity. Qed.

(** A fresh install on a healthy cluster succeeds after one check. *)
Example fresh_install_succeeds :
  let r := Install 1 (Scenario.start "2.14.0" (60 * Second) ""
                        (Scenario.mkWorld None None (inl (Scenario.deploymentOf []))
                           None (Some 0) 0)) in
  fst r = Returned None /\ countCalls isListReleases (trace (snd r)) = 1%nat.
Proof. split; vm_compute; reflexivity. Qed.



(** C2 as stated fails: with a wait of 1000 and a tiller that never
    answers, the deadline error comes after 11 health checks, not at most
    10 (the ten slices are slept between them). *)
Lemma C2_eleven_health_checks :
  neverHealthy (client (self (Scenario.stuck 1000))) /\
  (let r := Install 20 (Scenario.stuck 1000) in
   fst r = Returned (Some deadlineExceeded) /\
   countCalls isListReleases (trace (snd r)) = 11%nat /\
   ~ (countCalls isListReleases (trace (snd r)) <= 10)%nat /\
   totalSleep (trace (snd r)) = 1000).
Proof.
  split; [intros w; cbn; discriminate |].
  repeat split; try (vm_compute; reflexivity).
  vm_compute. lia.
Qed.

Lemma C2_polling_rounds_witness :
  neverHealthy (client (self (Scenario.stuck 1000))) /\
  fst (pollLoop 11 0 (Scenario.stuck 1000)) = Returned (Some deadlineExceeded) /\
  fst (pollLoop 1 0 (Scenario.stuck 0)) = Returned (Some deadlineExceeded).
Proof.
  assert (H : forall wait, neverHealthy (client (self (Scenario.stuck wait))))
    by (intros wait w; cbn; discriminate).
  split; [apply H |]. split.
  - destruct (proj2 (C2_polling_rounds (Scenario.stuck 1000) (H 1000)))
      as (n & _ & Hten & _ & Hrun).
    + cbn. lia.
    + vm_compute. discriminate.
    + rewrite (Hten eq_refl) in Hrun. apply (Hrun 11%nat). lia.
  - apply (proj1 (C2_polling_rounds (Scenario.stuck 0) (H 0))).
    + cbn. lia.
    + lia.
Defined.

(** C5, at the failing input: with the registry server ["host:5000"], the
    deployed tag 2.0.0 and the resolved tag 1.9.0, [Install] issues no
    upgrade call but does not return success: the comparison reads the
    segment ["5000/tiller"] of both references and panics. *)
Theorem C5_registry_port_downgrade_panics :
  strings.afterLastColon "host:5000/tiller:2.0.0" = Some "2.0.0" /\
  imageFor Scenario.portDowngrade = "host:5000/tiller:1.9.0" /\
  fst (Install 20 Scenario.portDowngrade) =
    Panicked (PanicError semver.ErrInvalidSemVer) /\
  fst (Install 20 Scenario.portDowngrade) <> Returned None /\
  countCalls isClientUpgrade (trace (snd (Install 20 Scenario.portDowngrade))) =
    0%nat.
Proof.
  repeat split; try (vm_compute; reflexivity). vm_compute. discriminate.
Qed.

(** C6, at the failing input: with the registry server ["host:5000"], the
    deployed tag 1.0.0 and the resolved tag 1.1.0, [Install] issues no
    upgrade call at all: the comparison reads the segment ["5000/tiller"]
    of both references and panics. *)
Theorem C6_registry_port_upgrade_panics :
  strings.afterLastColon "host:5000/tiller:1.0.0" = Some "1.0.0" /\
  imageFor Scenario.portUpgrade = "host:5000/tiller:1.1.0" /\
  fst (Install 20 Scenario.portUpgrade) =
    Panicked (PanicError semver.ErrInvalidSemVer) /\
  countCalls isClientUpgrade (trace (snd (Install 20 Scenario.portUpgrade))) =
    0%nat /\
  countCalls isClientUpgrade (trace (snd (Install 20 Scenario.portUpgrade))) <>
    1%nat.
Proof.
  repeat split; try (vm_compute; reflexivity). vm_compute. discriminate.
Qed.

Lemma Install_no_downgrade_one_colon_witness :
  fst (Install 20 Scenario.downgrade) = Returned None /\
  exists calls,
    trace (snd (Install 20 Scenario.downgrade)) =
      (trace Scenario.downgrade ++ calls)%list /\
    countCalls isClientUpgrade calls = 0%nat.
Proof.
  refine (Install_no_downgrade_one_colon 20 Scenario.downgrade _ _
    "gcr.io/kubernetes-helm/tiller" "gcr.io/kubernetes-helm/tiller"
    Scenario.alreadyExists _ _ _
    (mkContainer "gcr.io/kubernetes-helm/tiller:2.0.0") []
    (Resolved_public Scenario.downgrade eq_refl) eq_refl
    (proj1 (noColon_spec "gcr.io/kubernetes-helm/tiller") eq_refl) eq_refl eq_refl eq_refl eq_refl eq_refl
    (proj1 (noColon_spec "gcr.io/kubernetes-helm/tiller") eq_refl)).
Defined.

Lemma Install_upgrades_once_one_colon_witness :
  exists calls,
    trace (snd (Install 20 Scenario.upgrade)) =
      (trace Scenario.upgrade ++ calls)%list /\
    filter (fun c => isClientInstall c || isClientUpgrade c) calls =
      [ClientInstall
         (mkOptions "kube-system" "gcr.io/kubernetes-helm/tiller:1.1.0" "tiller");
       ClientUpgrade
         (mkOptions "kube-system" "gcr.io/kubernetes-helm/tiller:1.1.0" "tiller")] /\
    countCalls isClientUpgrade calls = 1%nat.
Proof.
  refine (Install_upgrades_once_one_colon 20 Scenario.upgrade _ _
    "gcr.io/kubernetes-helm/tiller" "gcr.io/kubernetes-helm/tiller"
    Scenario.alreadyExists _ _ _
    (mkContainer "gcr.io/kubernetes-helm/tiller:1.0.0") []
    (Resolved_public Scenario.upgrade eq_refl) eq_refl
    (proj1 (noColon_spec "gcr.io/kubernetes-helm/tiller") eq_refl) eq_refl eq_refl eq_refl eq_refl eq_refl
    (proj1 (noColon_spec "gcr.io/kubernetes-helm/tiller") eq_refl)).
Defined.

Lemma C7_setup_failure_short_circuits_witness :
  fst (Install 20 Scenario.refused) = Returned (Some Scenario.setupRefused) /\
  self (snd (Install 20 Scenario.refused)) = self Scenario.refused /\
  tillerTag (snd (Install 20 Scenario.refused)) = tillerTag Scenario.refused /\
  trace (snd (Install 20 Scenario.refused)) =
    (trace Scenario.refused ++
     [debugLine Scenario.refused;
      RegistrySetup "kube-system" serviceAccount
        (registryConfig (self Scenario.refused))])%list.
Proof.
  exact (C7_setup_failure_short_circuits 20 Scenario.refused
           Scenario.setupRefused Scenario.noRegistry eq_refl eq_refl).
Defined.

Lemma C8_image_resolution_witness :
  (exists rest,
     trace (snd (Install 20 Scenario.current)) =
     [LoggerDebug "Installing helm with Tiller version 2.14.0";
      ClientInstall
        (mkOptions "kube-system" "gcr.io/kubernetes-helm/tiller:2.14.0" "tiller")]
     ++ rest)%list /\
  (exists rest,
     trace (snd (Install 20 Scenario.private)) =
     [LoggerDebug "Installing helm with Tiller version 2.14.0";
      RegistrySetup "kube-system" "tiller" (mkRegistryConfig "registry.local");
      ClientInstall
        (mkOptions "kube-system" "registry.local/tiller:2.14.0" "tiller")]
     ++ rest)%list.
Proof.
  split.
  - exact (proj1 (C8_image_resolution 20 Scenario.current) eq_refl).
  - exact (proj2 (C8_image_resolution 20 Scenario.private)
             Scenario.absent eq_refl eq_refl).
Defined.

Lemma C9_error_taxonomy_witness :
  fst (Install 20 Scenario.installForbidden) =
    Returned (Some (errors.Wrap Scenario.forbidden "Error installing new helm")) /\
  fst (Install 20 Scenario.fetchTimesOut) = Returned (Some Scenario.timedOut) /\
  fst (Install 20 Scenario.upgradeForbidden) =
    Returned (Some (errors.Wrap Scenario.forbidden "Error upgrading helm")).
Proof.
  split; [| split].
  - refine (f_equal fst (proj1 (C9_error_taxonomy 20 Scenario.installForbidden
      _ _ (Resolved_public Scenario.installForbidden eq_refl))
      Scenario.forbidden _ eq_refl eq_refl)).
  - refine (f_equal fst (proj1 (proj2 (C9_error_taxonomy 20 Scenario.fetchTimesOut
      _ _ (Resolved_public Scenario.fetchTimesOut eq_refl)))
      Scenario.alreadyExists _ Scenario.timedOut _ eq_refl eq_refl eq_refl)).
  - refine (f_equal fst (proj2 (proj2 (C9_error_taxonomy 20 Scenario.upgradeForbidden
      _ _ (Resolved_public Scenario.upgradeForbidden eq_refl)))
      Scenario.alreadyExists _ _ _
      (mkContainer "gcr.io/kubernetes-helm/tiller:2.13.0") []
      Scenario.forbidden _
      eq_refl eq_refl eq_refl eq_refl _ eq_refl eq_refl)).
    vm_compute. discriminate.
Defined.

Lemma C10_no_container_panics_witness :
  fst (Install 20 Scenario.noContainer) = Panicked (IndexOutOfRange 0 0).
Proof.
  refine (proj1 (C10_no_container_panics 20 Scenario.noContainer
    _ _ Scenario.alreadyExists _ _ _
    (Resolved_public Scenario.noContainer eq_refl)
    eq_refl eq_refl eq_refl eq_refl)).
Defined.

(** * [Install] as a whole *)

Section WholeRuns.

Context {W : Type} {P : Platform W}.

Ltac go1 :=
  cbv beta delta [Install bind gets field invoke logger_Debug logger_Info
                  time_Sleep call helmHealthy outOfFuel SetMaxWait
                  ret Return liftResult moved debugLine optionsFor setupCall
                  getDeploymentCall infoLine] iota;
  cbn [tillerTag self world trace fst snd negb maxWait registryConfig
       cluster client].

Ltac go := go1; repeat (progress go1).

Ltac flatten := repeat rewrite <- app_assoc; cbn [app].

(** ** Every run follows one of the paths *)

Lemma Install_setup_fails (fuel : nat) (s : State W) (e : error) (w' : W) :
  HasRegistryConfig (registryConfig (self s)) = true ->
  PrivateRegistrySetup "kube-system" serviceAccount (cluster (self s))
    (registryConfig (self s)) (world s) = (Some e, w') ->
  Install fuel s = (Returned (Some e), moved s w' [debugLine s; setupCall s]).
Proof.
  intros Hrc Hsetup. go. rewrite Hrc. go. rewrite Hsetup. go.
  flatten. reflexivity.
Qed.

Lemma Install_path_resolved (fuel : nat) (s s1 : State W) (image : string) :
  Resolved s image s1 -> Path fuel s (Install fuel s).
Proof.
  intros Hres.
  destruct (client_Install (client (self s1)) (optionsFor image) (world s1))
    as [[e|] w2] eqn:Hinst.
  2:{ rewrite (Install_fresh fuel s s1 image Hres w2 Hinst).
      now apply Path_fresh. }
  destruct (apierrors.IsAlreadyExists e) eqn:Hae.
  2:{ rewrite (Install_install_fails fuel s s1 image Hres e w2 Hinst Hae).
      now apply Path_install_fails. }
  destruct (GetDeployment (cluster (self s1)) nameSpace deploymentName w2)
    as [[obj|e'] w3] eqn:Hget.
  2:{ rewrite (Install_fetch_fails fuel s s1 image Hres e w2 Hinst Hae e' w3 Hget).
      now apply (Path_fetch_fails fuel s image s1 e w2). }
  destruct (Containers (PodTemplateSpec_Spec (Template (Spec obj))))
    as [|first others] eqn:Hc.
  { rewrite (Install_no_container fuel s s1 image Hres e w2 Hinst Hae obj w3 Hget Hc).
    now apply (Path_no_container fuel s image s1 e w2 obj). }
  destruct (String.eqb_spec (Image first) image) as [Heq | Hne].
  { rewrite (Install_skips_upgrade fuel s s1 image Hres e w2 Hinst Hae obj w3
               Hget first others Hc (or_introl Heq)).
    apply (Path_skips fuel s image s1 e w2 obj w3 first others); auto. }
  destruct (isNewerVersion (Image first) image) as [[|]|p] eqn:Hnew.
  - destruct (client_Upgrade (client (self s1)) (optionsFor image) w3)
      as [[e''|] w4] eqn:Hup.
    + rewrite (Install_upgrade_fails fuel s s1 image Hres e w2 Hinst Hae obj w3
                 Hget first others Hc Hne Hnew e'' w4 Hup).
      now apply (Path_upgrade_fails fuel s image s1 e w2 obj w3 first others).
    + rewrite (Install_upgrades fuel s s1 image Hres e w2 Hinst Hae obj w3
                 Hget first others Hc Hne Hnew w4 Hup).
      now apply (Path_upgrades fuel s image s1 e w2 obj w3 first others).
  - rewrite (Install_skips_upgrade fuel s s1 image Hres e w2 Hinst Hae obj w3
               Hget first others Hc (or_intror Hnew)).
    apply (Path_skips fuel s image s1 e w2 obj w3 first others); auto.
  - rewrite (Install_comparison_panics fuel s s1 image Hres e w2 Hinst Hae obj w3
               Hget first others Hc p Hne Hnew).
    now apply (Path_comparison_panics fuel s image s1 e w2 obj w3 first others).
Qed.

(** Whatever the collaborators answer, a run of [Install] is one of the
    paths. *)
Lemma Install_path (fuel : nat) (s : State W) : Path fuel s (Install fuel s).
Proof.
  destruct (HasRegistryConfig (registryConfig (self s))) eqn:Hrc.
  - destruct (PrivateRegistrySetup "kube-system" serviceAccount (cluster (self s))
                (registryConfig (self s)) (world s)) as [[e|] w'] eqn:Hsetup.
    + rewrite (Install_setup_fails fuel s e w' Hrc Hsetup).
      now apply Path_setup_fails.
    + exact (Install_path_resolved fuel s _ _ (Resolved_private s w' Hrc Hsetup)).
  - exact (Install_path_resolved fuel s _ _ (Resolved_public s Hrc)).
Qed.

(** The image of a resolution is the one of [imageFor]. *)
Lemma Resolved_imageFor (s s1 : State W) (image : string) :
  Resolved s image s1 -> image = imageFor s.
Proof.
  intros Hres. unfold imageFor. destruct Hres as [Hrc | w' Hrc _]; now rewrite Hrc.
Qed.

(** ** The polling loop, whatever tiller answers *)

(** The loop ends by [break], by the deadline error, or not within the
    bound of the model; it never panics and returns nothing else.  When it
    ends by [break] its last call is a health check that was answered
    without error. *)
Lemma pollLoop_outcomes (fuel : nat) :
  forall (waited : Z) (s : State W),
  (fst (pollLoop fuel waited s) = Normal tt /\
   exists before w,
     trace (snd (pollLoop fuel waited s)) = (before ++ [ClientListReleases])%list /\
     fst (ListReleases (client (self s)) w) = None) \/
  fst (pollLoop fuel waited s) = Returned (Some deadlineExceeded) \/
  fst (pollLoop fuel waited s) = OutOfFuel.
Proof.
  induction fuel as [|fuel IH]; intros waited s.
  - right. right. reflexivity.
  - cbn [pollLoop]. go.
    destruct (ListReleases (client (self s)) (world s)) as [[e|] w1] eqn:Hlist; go.
    + destruct (waited >=? maxWait (self s)); go.
      * right. left. reflexivity.
      * match goal with
        | |- context [pollLoop fuel ?wd ?st] =>
            destruct (IH wd st) as [(Ho & before & w & Ht & Hw) | [Ho | Ho]];
              destruct (pollLoop fuel wd st) as [o s']; cbn [fst snd] in *; subst o
        end.
        -- left. split; [reflexivity |]. exists before, w. split; assumption.
        -- right. left. reflexivity.
        -- right. right. reflexivity.
    + left. split; [reflexivity |].
      exists (trace s), (world s). split; [reflexivity |]. now rewrite Hlist.
Qed.

(** ** What a run does to the installer and to the cluster *)

(** X1: whatever the collaborators answer and however the run ends, [Install]
    leaves the receiver (its wait, registry configuration, cluster and
    client) and the package's tag as they were, and only adds calls to
    those made before. *)
Theorem Install_keeps_receiver (fuel : nat) (s : State W) :
  self (snd (Install fuel s)) = self s /\
  tillerTag (snd (Install fuel s)) = tillerTag s /\
  exists calls, trace (snd (Install fuel s)) = (trace s ++ calls)%list.
Proof.
  destruct (Install_path fuel s);
    try match goal with
    | Hres : Resolved s _ ?s1 |- _ =>
        destruct (Resolved_frame s s1 _ Hres) as (Hself & Htag & calls0 & Ht0 & _)
    end;
    unfold afterLoop; cbn [snd];
    try match goal with
    | |- context [pollLoop fuel 0 ?st] =>
        destruct (pollLoop_frame fuel 0 st) as (calls & -> & _ & -> & ->)
    end;
    unfold moved; cbn [self tillerTag trace];
    rewrite ?Hself, ?Htag, ?Ht0;
    (split; [reflexivity |]); (split; [reflexivity |]);
    flatten; eauto.
Qed.

Lemma filter_isStep_poll (calls : list Call) :
  forallb isPollCall calls = true -> filter isStep calls = [].
Proof.
  apply filter_none. intros c Hc. unfold isStep. now rewrite Hc, orb_true_r.
Qed.

Lemma Resolved_steps (s s1 : State W) (image : string) :
  Resolved s image s1 ->
  exists calls0,
    trace s1 = (trace s ++ calls0)%list /\
    stepsOf s =
      (filter isStep calls0 ++
       [ClientInstall (optionsFor image); getDeploymentCall;
        ClientUpgrade (optionsFor image)])%list.
Proof.
  intros Hres. unfold stepsOf, imageFor.
  destruct Hres as [Hrc | w' Hrc _]; rewrite Hrc; eexists; split;
    try reflexivity.
Qed.

(** X2: in every run the calls that act on the cluster are a beginning of the
    same sequence: the registry setup (only with a registry
    configuration), the install attempt, the deployment fetch, the
    upgrade.  So each is made at most once, none without those before it,
    and the install and the upgrade carry the same options. *)
Theorem Install_call_protocol (fuel : nat) (s : State W) :
  exists calls,
    trace (snd (Install fuel s)) = (trace s ++ calls)%list /\
    beginningOf (stepsOf s) (filter isStep calls).
Proof.
  destruct (Install_path fuel s);
    try match goal with
    | Hres : Resolved s _ ?s1 |- _ =>
        destruct (Resolved_steps s s1 _ Hres) as (calls0 & Ht0 & ->)
    end;
    unfold afterLoop; cbn [snd];
    try match goal with
    | |- context [pollLoop fuel 0 ?st] =>
        destruct (pollLoop_frame fuel 0 st) as (calls & -> & Hp & _);
        apply filter_isStep_poll in Hp
    end;
    unfold moved; cbn [trace]; rewrite ?Ht0.
  - (* the setup fails *)
    exists [debugLine s; setupCall s]. split; [reflexivity |].
    unfold stepsOf. rewrite H. eexists. reflexivity.
  - exists (calls0 ++ [ClientInstall (optionsFor image); infoLine] ++ calls)%list.
    split; [now rewrite !app_assoc |].
    rewrite !filter_app, Hp. eexists. cbn. rewrite <- app_assoc. reflexivity.
  - exists (calls0 ++ [ClientInstall (optionsFor image)])%list.
    split; [now rewrite !app_assoc |].
    rewrite !filter_app. eexists. cbn. rewrite <- app_assoc. reflexivity.
  - exists (calls0 ++ [ClientInstall (optionsFor image); getDeploymentCall])%list.
    split; [now rewrite !app_assoc |].
    rewrite !filter_app. eexists. cbn. rewrite <- app_assoc. reflexivity.
  - exists (calls0 ++ [ClientInstall (optionsFor image); getDeploymentCall])%list.
    split; [now rewrite !app_assoc |].
    rewrite !filter_app. eexists. cbn. rewrite <- app_assoc. reflexivity.
  - exists (calls0 ++ [ClientInstall (optionsFor image); getDeploymentCall])%list.
    split; [now rewrite !app_assoc |].
    rewrite !filter_app. eexists. cbn. rewrite <- app_assoc. reflexivity.
  - exists (calls0 ++ [ClientInstall (optionsFor image); getDeploymentCall])%list.
    split; [now rewrite !app_assoc |].
    rewrite !filter_app. eexists. cbn. rewrite <- app_assoc. reflexivity.
  - exists (calls0 ++ [ClientInstall (optionsFor image); getDeploymentCall;
                       ClientUpgrade (optionsFor image)])%list.
    split; [now rewrite !app_assoc |].
    rewrite !filter_app. exists []. cbn. now rewrite app_nil_r.
  - exists (calls0 ++ [ClientInstall (optionsFor image); getDeploymentCall;
                       ClientUpgrade (optionsFor image); infoLine] ++ calls)%list.
    split; [now rewrite !app_assoc |].
    rewrite !filter_app, Hp. exists []. cbn. now rewrite !app_nil_r.
Qed.

(** ** How a run can end *)

(** The comparison panics only on the second segment of one of the two
    references, when the parser refuses it. *)
Lemma isNewerVersion_panics (existingImage newImage : string) (p : PanicValue) :
  isNewerVersion existingImage newImage = Panics p ->
  exists v err,
    (nth_error (strings.Split existingImage ":") 1 = Some v \/
     nth_error (strings.Split newImage ":") 1 = Some v) /\
    semver.NewVersion v = inr err /\ p = PanicError err.
Proof.
  unfold isNewerVersion.
  destruct (List.length (strings.Split existingImage ":") <? 2)%nat eqn:Le;
    [discriminate |].
  destruct (nth_error (strings.Split existingImage ":") 1) as [ev|] eqn:Ee.
  2:{ apply nth_error_None in Ee. apply Nat.ltb_ge in Le. lia. }
  destruct (index_nth_error _ _ _ Ee) as [-> _]. cbn [Result_bind].
  destruct (List.length (strings.Split newImage ":") <? 2)%nat eqn:Ln;
    [discriminate |].
  destruct (nth_error (strings.Split newImage ":") 1) as [nv|] eqn:En.
  2:{ apply nth_error_None in En. apply Nat.ltb_ge in Ln. lia. }
  destruct (index_nth_error _ _ _ En) as [-> _]. cbn [Result_bind].
  unfold semver.MustParse.
  destruct (semver.NewVersion nv) as [n|errn] eqn:Hn; cbn [Result_bind].
  - destruct (semver.NewVersion ev) as [e|erre] eqn:He; cbn [Result_bind];
      intros H; inversion H. exists ev, erre. auto.
  - intros H; inversion H. exists nv, errn. auto.
Qed.

(** The loop as rounds: when it ends, it has made rounds of failed checks
    and sleeps from its first world on, and its last check, in the world
    that the rounds left, was answered without error (the loop ends by
    [break]) or failed with the deadline reached (the deadline error). *)
Lemma pollLoop_rounds (fuel : nat) :
  forall (waited : Z) (s : State W),
  (exists calls waited' wk wf,
     Rounds (self s) waited (world s) calls waited' wk /\
     ListReleases (client (self s)) wk = (None, wf) /\
     pollLoop fuel waited s =
       (Normal tt, moved s wf (calls ++ [ClientListReleases]))) \/
  (exists calls waited' wk e wf,
     Rounds (self s) waited (world s) calls waited' wk /\
     ListReleases (client (self s)) wk = (Some e, wf) /\
     maxWait (self s) <= waited' /\
     pollLoop fuel waited s =
       (Returned (Some deadlineExceeded),
        moved s wf (calls ++ [ClientListReleases]))) \/
  fst (pollLoop fuel waited s) = OutOfFuel.
Proof.
  induction fuel as [|fuel IH]; intros waited s.
  - right. right. reflexivity.
  - cbn [pollLoop]. go.
    destruct (ListReleases (client (self s)) (world s)) as [[e|] w1] eqn:Hlist; go.
    2:{ left. exists [], waited, (world s), w1.
        split; [constructor |]. split; [exact Hlist | reflexivity]. }
    destruct (waited >=? maxWait (self s)) eqn:Hge; go.
    { right. left. exists [], waited, (world s), e, w1.
      split; [constructor |]. split; [exact Hlist |].
      split; [lia | reflexivity]. }
    assert (Hlt : waited < maxWait (self s)) by lia.
    match goal with
    | |- context [pollLoop fuel ?wd ?st] =>
        destruct (IH wd st)
          as [(calls & waited' & wk & wf & Hr & Hl & Hrun)
             | [(calls & waited' & wk & e' & wf & Hr & Hl & Hw & Hrun) | Ho]];
          cbn [self world] in *
    end.
    + left.
      exists (ClientListReleases :: TimeSleep (Z.quot (maxWait (self s)) 10) :: calls),
        waited', wk, wf.
      split; [exact (Rounds_more _ _ _ e w1 _ _ _ Hlist Hlt Hr) |].
      split; [exact Hl |]. rewrite Hrun. go. flatten. reflexivity.
    + right. left.
      exists (ClientListReleases :: TimeSleep (Z.quot (maxWait (self s)) 10) :: calls),
        waited', wk, e', wf.
      split; [exact (Rounds_more _ _ _ e w1 _ _ _ Hlist Hlt Hr) |].
      split; [exact Hl |]. split; [exact Hw |].
      rewrite Hrun. go. flatten. reflexivity.
    + right. right. exact Ho.
Qed.

Lemma afterLoop_rounds (fuel : nat) (st : State W) :
  (exists calls waited wk wf,
     Rounds (self st) 0 (world st) calls waited wk /\
     ListReleases (client (self st)) wk = (None, wf) /\
     afterLoop (pollLoop fuel 0 st) =
       (Returned None, moved st wf (calls ++ [ClientListReleases]))) \/
  (exists calls waited wk e wf,
     Rounds (self st) 0 (world st) calls waited wk /\
     ListReleases (client (self st)) wk = (Some e, wf) /\
     maxWait (self st) <= waited /\
     afterLoop (pollLoop fuel 0 st) =
       (Returned (Some deadlineExceeded),
        moved st wf (calls ++ [ClientListReleases]))) \/
  fst (afterLoop (pollLoop fuel 0 st)) = OutOfFuel.
Proof.
  destruct (pollLoop_rounds fuel 0 st)
    as [(calls & waited & wk & wf & Hr & Hl & Hrun)
       | [(calls & waited & wk & e & wf & Hr & Hl & Hw & Hrun) | Ho]].
  - left. exists calls, waited, wk, wf. rewrite Hrun. repeat split; assumption.
  - right. left. exists calls, waited, wk, e, wf. rewrite Hrun.
    repeat split; assumption.
  - right. right. unfold afterLoop. cbn [fst]. now rewrite Ho.
Qed.

(** X3: when [Install] returns an error, the run is one of five, each
    with the answers of this very run.  The registry setup failed in the
    first world, and the error is its error.  Or the install attempt
    failed in the world after the resolution with an error that is not
    already-exists, and the error is that one wrapped as "Error installing
    new helm".  Or the deployment fetch failed in the world after the
    install attempt, and the error is its error.  Or the upgrade failed in
    the world after the fetch, and the error is that one wrapped as "Error
    upgrading helm".  Or the run reached the polling loop, made rounds of
    failed checks and sleeps, and its last health check failed with the
    deadline reached: the error is the deadline error.  In each case the
    failing call is the last of the run. *)
Theorem Install_error_kinds (fuel : nat) (s : State W) (err : error) :
  fst (Install fuel s) = Returned (Some err) ->
  (exists w',
     HasRegistryConfig (registryConfig (self s)) = true /\
     PrivateRegistrySetup "kube-system" serviceAccount (cluster (self s))
       (registryConfig (self s)) (world s) = (Some err, w') /\
     snd (Install fuel s) = moved s w' [debugLine s; setupCall s]) \/
  (exists image s1 e w2,
     Resolved s image s1 /\
     client_Install (client (self s1)) (optionsFor image) (world s1) = (Some e, w2) /\
     apierrors.IsAlreadyExists e = false /\
     err = errors.Wrap e "Error installing new helm" /\
     snd (Install fuel s) = moved s1 w2 [ClientInstall (optionsFor image)]) \/
  (exists image s1 e w2 w3,
     Resolved s image s1 /\
     client_Install (client (self s1)) (optionsFor image) (world s1) = (Some e, w2) /\
     apierrors.IsAlreadyExists e = true /\
     GetDeployment (cluster (self s1)) nameSpace deploymentName w2 = (inr err, w3) /\
     snd (Install fuel s) =
       moved s1 w3 [ClientInstall (optionsFor image); getDeploymentCall]) \/
  (exists image s1 e w2 obj w3 e'' w4,
     Resolved s image s1 /\
     client_Install (client (self s1)) (optionsFor image) (world s1) = (Some e, w2) /\
     apierrors.IsAlreadyExists e = true /\
     GetDeployment (cluster (self s1)) nameSpace deploymentName w2 = (inl obj, w3) /\
     client_Upgrade (client (self s1)) (optionsFor image) w3 = (Some e'', w4) /\
     err = errors.Wrap e'' "Error upgrading helm" /\
     snd (Install fuel s) =
       moved s1 w4 [ClientInstall (optionsFor image); getDeploymentCall;
                    ClientUpgrade (optionsFor image)]) \/
  (exists st calls waited wk e wf,
     Reaches s st /\
     Rounds (self st) 0 (world st) calls waited wk /\
     ListReleases (client (self st)) wk = (Some e, wf) /\
     maxWait (self st) <= waited /\
     err = deadlineExceeded /\
     snd (Install fuel s) = moved st wf (calls ++ [ClientListReleases])).
Proof.
  destruct (Install_path fuel s)
    as [e w' Hrc Hsetup
       | image s1 w2 Hres Hinst
       | image s1 e w2 Hres Hinst Hae
       | image s1 e w2 e' w3 Hres Hinst Hae Hget
       | image s1 e w2 obj w3 Hres Hinst Hae Hget Hc
       | image s1 e w2 obj w3 first others Hres Hinst Hae Hget Hc Hskip
       | image s1 e w2 obj w3 first others p Hres Hinst Hae Hget Hc Hne Hnew
       | image s1 e w2 obj w3 first others e'' w4 Hres Hinst Hae Hget Hc Hne Hnew Hup
       | image s1 e w2 obj w3 first others w4 Hres Hinst Hae Hget Hc Hne Hnew Hup].
  - intros Herr. inversion Herr; subst. left. exists w'. auto.
  - pose proof (Reaches_fresh s image s1 w2 Hres Hinst) as Hreach.
    destruct (afterLoop_rounds fuel
                (moved s1 w2 [ClientInstall (optionsFor image); infoLine]))
      as [(calls & waited & wk & wf & Hr & Hl & ->)
         | [(calls & waited & wk & e & wf & Hr & Hl & Hw & ->) | Ho]];
      intros Herr; [discriminate | | rewrite Ho in Herr; discriminate].
    inversion Herr; subst. do 4 right.
    eexists _, calls, waited, wk, e, wf. repeat split; eassumption.
  - intros Herr. inversion Herr; subst. right. left.
    exists image, s1, e, w2. auto.
  - intros Herr. inversion Herr; subst. do 2 right. left.
    exists image, s1, e, w2, w3. auto.
  - intros Herr. discriminate.
  - intros Herr. discriminate.
  - intros Herr. discriminate.
  - intros Herr. inversion Herr; subst. do 3 right. left.
    exists image, s1, e, w2, obj, w3, e'', w4. repeat split; assumption.
  - pose proof (Reaches_upgraded s image s1 e w2 obj w3 first others w4
                  Hres Hinst Hae Hget Hc Hne Hnew Hup) as Hreach.
    destruct (afterLoop_rounds fuel
                (moved s1 w4 [ClientInstall (optionsFor image); getDeploymentCall;
                              ClientUpgrade (optionsFor image); infoLine]))
      as [(calls & waited & wk & wf & Hr & Hl & ->)
         | [(calls & waited & wk & e0 & wf & Hr & Hl & Hw & ->) | Ho]];
      intros Herr; [discriminate | | rewrite Ho in Herr; discriminate].
    inversion Herr; subst. do 4 right.
    eexists _, calls, waited, wk, e0, wf. repeat split; eassumption.
Qed.

(** X4: when [Install] panics, the install attempt of this run was
    answered by already-exists and the deployment was fetched, the fetch
    is the last call, and either the fetched deployment has no container
    and the panic is on the index 0 of an empty slice, or the comparison of
    its first image with the resolved one panics, on a second segment that
    the parser refuses.  A run whose install attempt succeeds never
    panics. *)
Theorem Install_panic_kinds (fuel : nat) (s : State W) :
  (forall p, fst (Install fuel s) = Panicked p ->
   exists image s1 e w2 obj w3,
     Resolved s image s1 /\
     client_Install (client (self s1)) (optionsFor image) (world s1) = (Some e, w2) /\
     apierrors.IsAlreadyExists e = true /\
     GetDeployment (cluster (self s1)) nameSpace deploymentName w2 = (inl obj, w3) /\
     snd (Install fuel s) =
       moved s1 w3 [ClientInstall (optionsFor image); getDeploymentCall] /\
     ((Containers (PodTemplateSpec_Spec (Template (Spec obj))) = [] /\
       p = IndexOutOfRange 0 0) \/
      (exists first others v err,
         Containers (PodTemplateSpec_Spec (Template (Spec obj))) = first :: others /\
         Image first <> image /\
         isNewerVersion (Image first) image = Panics p /\
         (nth_error (strings.Split (Image first) ":") 1 = Some v \/
          nth_error (strings.Split image ":") 1 = Some v) /\
         semver.NewVersion v = inr err /\ p = PanicError err))) /\
  (forall image s1 w2,
     Resolved s image s1 ->
     client_Install (client (self s1)) (optionsFor image) (world s1) = (None, w2) ->
     forall p, fst (Install fuel s) <> Panicked p).
Proof.
  split.
  - intros p.
    destruct (Install_path fuel s)
      as [e w' Hrc Hsetup
         | image s1 w2 Hres Hinst
         | image s1 e w2 Hres Hinst Hae
         | image s1 e w2 e' w3 Hres Hinst Hae Hget
         | image s1 e w2 obj w3 Hres Hinst Hae Hget Hc
         | image s1 e w2 obj w3 first others Hres Hinst Hae Hget Hc Hskip
         | image s1 e w2 obj w3 first others p' Hres Hinst Hae Hget Hc Hne Hnew
         | image s1 e w2 obj w3 first others e'' w4 Hres Hinst Hae Hget Hc Hne Hnew Hup
         | image s1 e w2 obj w3 first others w4 Hres Hinst Hae Hget Hc Hne Hnew Hup];
      unfold afterLoop; cbn [fst snd];
      try match goal with
      | |- context [pollLoop fuel 0 ?st] =>
          destruct (pollLoop_outcomes fuel 0 st) as [(-> & _) | [-> | ->]]
      end;
      intros Hp; inversion Hp; subst.
    + exists image, s1, e, w2, obj, w3. repeat split; try assumption.
      left. split; [assumption | reflexivity].
    + exists image, s1, e, w2, obj, w3. repeat split; try assumption.
      right. destruct (isNewerVersion_panics _ _ _ Hnew) as (v & err & Hv & Hn & ->).
      exists first, others, v, err. repeat split; assumption.
  - intros image s1 w2 Hres Hinst p.
    rewrite (Install_fresh fuel s s1 image Hres w2 Hinst).
    unfold afterLoop. cbn [fst].
    destruct (pollLoop_outcomes fuel 0
                (moved s1 w2 [ClientInstall (optionsFor image); infoLine]))
      as [(-> & _) | [-> | ->]]; discriminate.
Qed.

(** X5: when [Install] returns success, the run is one of two, each with
    the answers of this very run.  Either it reached the polling loop
    (after a fresh install or an upgrade), made rounds of failed checks and
    sleeps, and its last call is a health check that was answered without
    error in the world those rounds left.  Or the install attempt was
    answered by already-exists, the first image of the fetched deployment
    is the resolved one or the resolved one is not newer, and the fetch is
    the last call. *)
Theorem Install_success_kinds (fuel : nat) (s : State W) :
  fst (Install fuel s) = Returned None ->
  (exists st calls waited wk wf,
     Reaches s st /\
     Rounds (self st) 0 (world st) calls waited wk /\
     ListReleases (client (self st)) wk = (None, wf) /\
     snd (Install fuel s) = moved st wf (calls ++ [ClientListReleases])) \/
  (exists image s1 e w2 obj w3 first others,
     Resolved s image s1 /\
     client_Install (client (self s1)) (optionsFor image) (world s1) = (Some e, w2) /\
     apierrors.IsAlreadyExists e = true /\
     GetDeployment (cluster (self s1)) nameSpace deploymentName w2 = (inl obj, w3) /\
     Containers (PodTemplateSpec_Spec (Template (Spec obj))) = first :: others /\
     (Image first = image \/ isNewerVersion (Image first) image = Value false) /\
     snd (Install fuel s) =
       moved s1 w3 [ClientInstall (optionsFor image); getDeploymentCall]).
Proof.
  destruct (Install_path fuel s)
    as [e w' Hrc Hsetup
       | image s1 w2 Hres Hinst
       | image s1 e w2 Hres Hinst Hae
       | image s1 e w2 e' w3 Hres Hinst Hae Hget
       | image s1 e w2 obj w3 Hres Hinst Hae Hget Hc
       | image s1 e w2 obj w3 first others Hres Hinst Hae Hget Hc Hskip
       | image s1 e w2 obj w3 first others p Hres Hinst Hae Hget Hc Hne Hnew
       | image s1 e w2 obj w3 first others e'' w4 Hres Hinst Hae Hget Hc Hne Hnew Hup
       | image s1 e w2 obj w3 first others w4 Hres Hinst Hae Hget Hc Hne Hnew Hup];
    try (intros Hok; discriminate).
  - pose proof (Reaches_fresh s image s1 w2 Hres Hinst) as Hreach.
    destruct (afterLoop_rounds fuel
                (moved s1 w2 [ClientInstall (optionsFor image); infoLine]))
      as [(calls & waited & wk & wf & Hr & Hl & ->)
         | [(calls & waited & wk & e & wf & Hr & Hl & Hw & ->) | Ho]];
      intros Hok; [| discriminate | rewrite Ho in Hok; discriminate].
    left. eexists _, calls, waited, wk, wf. repeat split; eassumption.
  - intros _. right. exists image, s1, e, w2, obj, w3, first, others.
    repeat split; assumption.
  - pose proof (Reaches_upgraded s image s1 e w2 obj w3 first others w4
                  Hres Hinst Hae Hget Hc Hne Hnew Hup) as Hreach.
    destruct (afterLoop_rounds fuel
                (moved s1 w4 [ClientInstall (optionsFor image); getDeploymentCall;
                              ClientUpgrade (optionsFor image); infoLine]))
      as [(calls & waited & wk & wf & Hr & Hl & ->)
         | [(calls & waited & wk & e0 & wf & Hr & Hl & Hw & ->) | Ho]];
      intros Hok; [| discriminate | rewrite Ho in Hok; discriminate].
    left. eexists _, calls, waited, wk, wf. repeat split; eassumption.
Qed.

(** ** The time spent polling *)

Lemma totalSleep_sleepRounds (n : nat) (d : Z) :
  totalSleep (sleepRounds n d) = Z.of_nat n * d.
Proof.
  induction n as [|n IH]; [reflexivity |].
  cbn [sleepRounds totalSleep]. rewrite IH. lia.
Qed.

Lemma countCalls_sleepRounds (n : nat) (d : Z) :
  countCalls isListReleases (sleepRounds n d) = n.
Proof.
  induction n as [|n IH]; [reflexivity |].
  unfold countCalls in *. cbn [sleepRounds filter isListReleases List.length].
  now rewrite IH.
Qed.

Lemma In_sleepRounds (n : nat) (d : Z) (c : Call) :
  In c (sleepRounds n d) -> c = ClientListReleases \/ c = TimeSleep d.
Proof.
  induction n as [|n IH]; cbn [sleepRounds In]; [tauto |].
  intros [<- | [<- | H]]; auto.
Qed.

Lemma In_pollCalls (n : nat) (d : Z) (c : Call) :
  In c (pollCalls n d) -> c = ClientListReleases \/ c = TimeSleep d.
Proof.
  induction n as [|n IH]; cbn [pollCalls In].
  - intros [<- | []]. now left.
  - intros [<- | [<- | H]]; auto.
Qed.

(** The loop from [waited], whatever tiller answers: either the bound of
    the model is used up after [fuel] rounds, the deadline not reached
    before the last of them; or the loop ends at the check that follows
    [k] rounds, the deadline not reached before the last round. *)
Lemma pollLoop_budget (fuel : nat) :
  forall (waited : Z) (s : State W),
  0 < Z.quot (maxWait (self s)) 10 ->
  maxWait (self s) + Z.quot (maxWait (self s)) 10 <= MaxInt64 ->
  MinInt64 <= waited ->
  (fst (pollLoop fuel waited s) = OutOfFuel /\
   trace (snd (pollLoop fuel waited s)) =
     (trace s ++ sleepRounds fuel (Z.quot (maxWait (self s)) 10))%list /\
   ((0 < fuel)%nat ->
    waited + (Z.of_nat fuel - 1) * Z.quot (maxWait (self s)) 10
      < maxWait (self s))) \/
  (exists k : nat,
     (k < fuel)%nat /\
     trace (snd (pollLoop fuel waited s)) =
       (trace s ++ pollCalls k (Z.quot (maxWait (self s)) 10))%list /\
     (k = 0%nat \/
      waited + Z.of_nat k * Z.quot (maxWait (self s)) 10
        < maxWait (self s) + Z.quot (maxWait (self s)) 10) /\
     (fst (pollLoop fuel waited s) = Normal tt \/
      (fst (pollLoop fuel waited s) = Returned (Some deadlineExceeded) /\
       maxWait (self s) <= waited + Z.of_nat k * Z.quot (maxWait (self s)) 10))).
Proof.
  induction fuel as [|fuel IH]; intros waited s Hd Hmax Hlow.
  - left. cbn [pollLoop]. go. rewrite app_nil_r. repeat split. lia.
  - cbn [pollLoop]. go.
    destruct (ListReleases (client (self s)) (world s)) as [[e|] w1]; go.
    2:{ right. exists 0%nat. repeat split; [lia | now left | now left]. }
    destruct (waited >=? maxWait (self s)) eqn:Hge; go.
    { right. exists 0%nat. repeat split; [lia | now left |].
      right. split; [reflexivity | lia]. }
    assert (Hlt : waited < maxWait (self s)) by lia.
    rewrite wrap64_small by (unfold MinInt64, MaxInt64 in *; lia).
    match goal with
    | |- context [pollLoop fuel ?wd ?st] =>
        destruct (IH wd st) as [(Ho & Ht & Hb) | (k & Hk & Ht & Hb & Ho)];
          cbn [self]; try assumption; try lia;
          cbn [self trace] in *;
          destruct (pollLoop fuel wd st) as [o s']; cbn [fst snd] in *
    end.
    + left. subst o. split; [reflexivity |]. split.
      * rewrite Ht. flatten. reflexivity.
      * intros _. destruct fuel as [|fuel']; [lia |].
        specialize (Hb ltac:(lia)). lia.
    + right. exists (S k). split; [lia |]. split.
      * rewrite Ht. flatten. reflexivity.
      * split.
        -- right. destruct Hb as [-> | Hb]; lia.
        -- destruct Ho as [-> | (-> & Ho)]; [now left |].
           right. split; [reflexivity | lia].
Qed.

(** X6: with a wait of at least ten nanoseconds (the last slice not
    overflowing [int64]) and whatever tiller answers, the polling loop
    makes nothing but health checks and sleeps of one slice,
    [maxWait / 10], each; the time slept stays below [maxWait] plus one
    slice and there are at most 20 health checks; and the deadline error is
    returned only after at least [maxWait] has been slept. *)
Theorem pollLoop_within_budget (fuel : nat) (s : State W) :
  10 <= maxWait (self s) ->
  maxWait (self s) + Z.quot (maxWait (self s)) 10 <= MaxInt64 ->
  exists calls,
    trace (snd (pollLoop fuel 0 s)) = (trace s ++ calls)%list /\
    (forall c, In c calls ->
       c = ClientListReleases \/ c = TimeSleep (Z.quot (maxWait (self s)) 10)) /\
    0 <= totalSleep calls < maxWait (self s) + Z.quot (maxWait (self s)) 10 /\
    (countCalls isListReleases calls <= 20)%nat /\
    (fst (pollLoop fuel 0 s) = Returned (Some deadlineExceeded) ->
     maxWait (self s) <= totalSleep calls).
Proof.
  intros Hmw Hmax.
  set (mw := maxWait (self s)) in *. set (d := Z.quot mw 10) in *.
  assert (Hd : d = mw / 10) by (apply Z.quot_div_nonneg; lia).
  assert (Hdm : mw = 10 * d + mw mod 10) by (rewrite Hd; apply Z.div_mod; lia).
  pose proof (Z.mod_pos_bound mw 10 ltac:(lia)) as Hr.
  assert (Hdpos : 0 < d) by lia.
  destruct (pollLoop_budget fuel 0 s) as [(Ho & Ht & Hb) | (k & Hk & Ht & Hb & Ho)];
    fold mw; fold d; try assumption; try (unfold MinInt64; lia);
    fold mw in Ht; fold d in Ht; rewrite Ht; eexists; (split; [reflexivity |]).
  - fold mw in Hb. fold d in Hb.
    split; [apply In_sleepRounds |].
    rewrite totalSleep_sleepRounds, countCalls_sleepRounds.
    destruct fuel as [|fuel'].
    + repeat split; try (cbn; lia).
      intros Hret. rewrite Ho in Hret. discriminate.
    + specialize (Hb ltac:(lia)).
      repeat split; try nia.
      intros Hret. rewrite Ho in Hret. discriminate.
  - fold mw in Hb, Ho. fold d in Hb, Ho.
    split; [apply In_pollCalls |].
    rewrite totalSleep_pollCalls, countCalls_pollCalls.
    assert (Hk19 : (k <= 19)%nat) by (destruct Hb as [-> | Hb]; [lia | nia]).
    repeat split; try nia.
    intros Hret. destruct Ho as [Ho | (_ & Ho)]; [congruence | lia].
Qed.

(** ** Termination *)

(** Once the loop ends within a bound, a larger bound changes nothing. *)
Lemma pollLoop_more_fuel (fuel : nat) :
  forall (waited : Z) (s : State W) (more : nat),
  fst (pollLoop fuel waited s) <> OutOfFuel ->
  pollLoop (fuel + more) waited s = pollLoop fuel waited s.
Proof.
  induction fuel as [|fuel IH]; intros waited s more Hend.
  - cbn [pollLoop] in Hend. unfold outOfFuel in Hend. cbn [fst] in Hend.
    congruence.
  - cbn [pollLoop Nat.add] in *. revert Hend. go.
    destruct (ListReleases (client (self s)) (world s)) as [[e|] w1]; go;
      [| reflexivity].
    destruct (waited >=? maxWait (self s)); go; [reflexivity |].
    intros Hend. apply IH. exact Hend.
Qed.

(** With a wait of zero or less, or of at least ten nanoseconds, twenty
    rounds are enough for the loop to end. *)
Lemma pollLoop_ends (s : State W) :
  maxWait (self s) <= 0 \/
  (10 <= maxWait (self s) /\
   maxWait (self s) + Z.quot (maxWait (self s)) 10 <= MaxInt64) ->
  fst (pollLoop 20 0 s) <> OutOfFuel.
Proof.
  intros [Hmw | (Hmw & Hmax)].
  - cbn [pollLoop]. go.
    destruct (ListReleases (client (self s)) (world s)) as [[e|] w1]; go;
      [| discriminate].
    replace (0 >=? maxWait (self s)) with true by (symmetry; lia).
    go. discriminate.
  - set (mw := maxWait (self s)) in *. set (d := Z.quot mw 10) in *.
    assert (Hd : d = mw / 10) by (apply Z.quot_div_nonneg; lia).
    assert (Hdm : mw = 10 * d + mw mod 10) by (rewrite Hd; apply Z.div_mod; lia).
    pose proof (Z.mod_pos_bound mw 10 ltac:(lia)) as Hr.
    destruct (pollLoop_budget 20 0 s) as [(_ & _ & Hb) | (k & _ & _ & _ & Ho)];
      fold mw; fold d; try lia; try (unfold MinInt64; lia).
    + fold mw in Hb. fold d in Hb. specialize (Hb ltac:(lia)). lia.
    + destruct Ho as [-> | (-> & _)]; discriminate.
Qed.

(** A run either never reaches the polling loop, and then gives the same
    whatever the bound, or it is the polling loop from one state, the same
    for every bound, with the receiver of the run. *)
Lemma Install_loop_or_not_resolved (s s1 : State W) (image : string) :
  Resolved s image s1 ->
  (exists r, fst r <> OutOfFuel /\ forall fuel, Install fuel s = r) \/
  (exists st, self st = self s /\
     forall fuel, Install fuel s = afterLoop (pollLoop fuel 0 st)).
Proof.
  intros Hres.
  destruct (Resolved_frame s s1 image Hres) as (Hself & _).
  destruct (client_Install (client (self s1)) (optionsFor image) (world s1))
    as [[e|] w2] eqn:Hinst.
  2:{ right. eexists. split; [| intros fuel;
        exact (Install_fresh fuel s s1 image Hres w2 Hinst)]. exact Hself. }
  destruct (apierrors.IsAlreadyExists e) eqn:Hae.
  2:{ left. eexists. split; [| intros fuel;
        exact (Install_install_fails fuel s s1 image Hres e w2 Hinst Hae)].
      discriminate. }
  destruct (GetDeployment (cluster (self s1)) nameSpace deploymentName w2)
    as [[obj|e'] w3] eqn:Hget.
  2:{ left. eexists. split; [| intros fuel;
        exact (Install_fetch_fails fuel s s1 image Hres e w2 Hinst Hae e' w3 Hget)].
      discriminate. }
  destruct (Containers (PodTemplateSpec_Spec (Template (Spec obj))))
    as [|first others] eqn:Hc.
  { left. eexists. split; [| intros fuel;
      exact (Install_no_container fuel s s1 image Hres e w2 Hinst Hae obj w3 Hget Hc)].
    discriminate. }
  destruct (String.eqb_spec (Image first) image) as [Heq | Hne].
  { left. eexists. split; [| intros fuel;
      exact (Install_skips_upgrade fuel s s1 image Hres e w2 Hinst Hae obj w3
               Hget first others Hc (or_introl Heq))].
    discriminate. }
  destruct (isNewerVersion (Image first) image) as [[|]|p] eqn:Hnew.
  - destruct (client_Upgrade (client (self s1)) (optionsFor image) w3)
      as [[e''|] w4] eqn:Hup.
    + left. eexists. split; [| intros fuel;
        exact (Install_upgrade_fails fuel s s1 image Hres e w2 Hinst Hae obj w3
                 Hget first others Hc Hne Hnew e'' w4 Hup)].
      discriminate.
    + right. eexists. split; [| intros fuel;
        exact (Install_upgrades fuel s s1 image Hres e w2 Hinst Hae obj w3
                 Hget first others Hc Hne Hnew w4 Hup)].
      exact Hself.
  - left. eexists. split; [| intros fuel;
      exact (Install_skips_upgrade fuel s s1 image Hres e w2 Hinst Hae obj w3
               Hget first others Hc (or_intror Hnew))].
    discriminate.
  - left. eexists. split; [| intros fuel;
      exact (Install_comparison_panics fuel s s1 image Hres e w2 Hinst Hae obj w3
               Hget first others Hc p Hne Hnew)].
    discriminate.
Qed.

Lemma Install_loop_or_not (s : State W) :
  (exists r, fst r <> OutOfFuel /\ forall fuel, Install fuel s = r) \/
  (exists st, self st = self s /\
     forall fuel, Install fuel s = afterLoop (pollLoop fuel 0 st)).
Proof.
  destruct (HasRegistryConfig (registryConfig (self s))) eqn:Hrc.
  - destruct (PrivateRegistrySetup "kube-system" serviceAccount (cluster (self s))
                (registryConfig (self s)) (world s)) as [[e|] w'] eqn:Hsetup.
    + left. eexists. split; [| intros fuel;
        exact (Install_setup_fails fuel s e w' Hrc Hsetup)].
      discriminate.
    + exact (Install_loop_or_not_resolved s _ _ (Resolved_private s w' Hrc Hsetup)).
  - exact (Install_loop_or_not_resolved s _ _ (Resolved_public s Hrc)).
Qed.

(** [Install] never falls off its end. *)
Lemma Install_outcome (fuel : nat) (s : State W) :
  (exists final, fst (Install fuel s) = Returned final) \/
  (exists p, fst (Install fuel s) = Panicked p) \/
  fst (Install fuel s) = OutOfFuel.
Proof.
  destruct (Install_path fuel s); unfold afterLoop; cbn [fst];
    try match goal with
    | |- context [pollLoop fuel 0 ?st] =>
        destruct (pollLoop_outcomes fuel 0 st) as [(-> & _) | [-> | ->]]
    end; eauto.
Qed.

(** X7: [Install] terminates: with a wait of zero or less, or of at least ten
    nanoseconds (the last slice not overflowing [int64]), whatever the
    collaborators answer, a run ends by a return or a panic within twenty
    rounds of the polling loop, and a larger bound on the rounds gives the
    very same run. *)
Theorem Install_terminates (fuel : nat) (s : State W) :
  maxWait (self s) <= 0 \/
  (10 <= maxWait (self s) /\
   maxWait (self s) + Z.quot (maxWait (self s)) 10 <= MaxInt64) ->
  (20 <= fuel)%nat ->
  Install fuel s = Install 20 s /\
  ((exists final, fst (Install fuel s) = Returned final) \/
   (exists p, fst (Install fuel s) = Panicked p)).
Proof.
  intros Hwait Hfuel.
  assert (Hends : fst (Install fuel s) <> OutOfFuel /\ Install fuel s = Install 20 s).
  { destruct (Install_loop_or_not s) as [(r & Hr & Hsame) | (st & Hself & Hloop)].
    - rewrite !Hsame. split; [exact Hr | reflexivity].
    - assert (Hst : fst (pollLoop 20 0 st) <> OutOfFuel)
        by (apply pollLoop_ends; now rewrite Hself).
      assert (Hmore : pollLoop fuel 0 st = pollLoop 20 0 st).
      { replace fuel with (20 + (fuel - 20))%nat by lia.
        now apply pollLoop_more_fuel. }
      rewrite !Hloop, Hmore. split; [| reflexivity].
      unfold afterLoop. cbn [fst].
      destruct (fst (pollLoop 20 0 st)); congruence. }
  destruct Hends as [Hne Hsame]. split; [exact Hsame |].
  destruct (Install_outcome fuel s) as [Hr | [Hp | Ho]]; [now left | now right |].
  contradiction.
Qed.

(** ** Edges of the wait *)

Lemma pollLoop_spins (fuel : nat) :
  forall s : State W,
  neverHealthy (client (self s)) ->
  0 < maxWait (self s) < 10 ->
  fst (pollLoop fuel 0 s) = OutOfFuel /\
  trace (snd (pollLoop fuel 0 s)) = (trace s ++ sleepRounds fuel 0)%list.
Proof.
  induction fuel as [|fuel IH]; intros s Hnever Hmw.
  - cbn [pollLoop]. go. rewrite app_nil_r. split; reflexivity.
  - assert (Hq : Z.quot (maxWait (self s)) 10 = 0) by (apply Z.quot_small; lia).
    cbn [pollLoop]. go.
    pose proof (Hnever (world s)) as Hsick.
    destruct (ListReleases (client (self s)) (world s)) as [[e|] w1];
      try (cbn [fst] in Hsick; congruence); go.
    replace (0 >=? maxWait (self s)) with false by (symmetry; lia).
    go. rewrite Hq. change (wrap64 (0 + 0)) with 0.
    match goal with
    | |- context [pollLoop fuel 0 ?st] =>
        destruct (IH st) as [Ho Ht]; cbn [self]; try assumption
    end.
    rewrite Ho, Ht. go. flatten. split; reflexivity.
Qed.

(** X8: with a wait between one and nine nanoseconds the slice is zero: on a
    fresh install over a tiller that never answers, [Install] never
    returns.  Whatever the bound on the rounds, the run is still polling
    after that many health checks, each followed by a sleep of zero. *)
Theorem Install_never_ends_below_ten (fuel : nat) (s s1 : State W)
  (image : string) (w2 : W) :
  Resolved s image s1 ->
  client_Install (client (self s1)) (optionsFor image) (world s1) = (None, w2) ->
  neverHealthy (client (self s)) ->
  0 < maxWait (self s) < 10 ->
  fst (Install fuel s) = OutOfFuel /\
  trace (snd (Install fuel s)) =
    (trace s1 ++ [ClientInstall (optionsFor image); infoLine]
       ++ sleepRounds fuel 0)%list /\
  totalSleep (sleepRounds fuel 0) = 0.
Proof.
  intros Hres Hinst Hnever Hmw.
  rewrite (Install_fresh fuel s s1 image Hres w2 Hinst).
  destruct (Resolved_frame s s1 image Hres) as (Hself & _).
  destruct (pollLoop_spins fuel
              (moved s1 w2 [ClientInstall (optionsFor image); infoLine]))
    as [Ho Ht].
  1-2: unfold moved; cbn [self]; now rewrite Hself.
  unfold afterLoop. cbn [fst snd]. rewrite Ho, Ht.
  split; [reflexivity |]. split.
  - unfold moved. cbn [trace]. now rewrite <- app_assoc.
  - rewrite totalSleep_sleepRounds. lia.
Qed.

(** X9: a fresh install over a tiller that answers the first health check
    returns success after that one check, without any sleep, whatever the
    wait is, be it zero or negative. *)
Theorem Install_fresh_healthy (fuel : nat) (s s1 : State W) (image : string)
  (w2 w3 : W) :
  Resolved s image s1 ->
  client_Install (client (self s1)) (optionsFor image) (world s1) = (None, w2) ->
  ListReleases (client (self s)) w2 = (None, w3) ->
  (0 < fuel)%nat ->
  Install fuel s =
  (Returned None,
   moved s1 w3 [ClientInstall (optionsFor image); infoLine; ClientListReleases]).
Proof.
  intros Hres Hinst Hlist Hfuel.
  rewrite (Install_fresh fuel s s1 image Hres w2 Hinst).
  destruct (Resolved_frame s s1 image Hres) as (Hself & _).
  destruct fuel as [|fuel]; [lia |].
  unfold afterLoop. cbn [pollLoop]. go. rewrite Hself, Hlist. go.
  flatten. reflexivity.
Qed.

(** X10: the installer that [NewInstaller] builds waits 60 seconds: on a fresh
    install over a tiller that never answers it gives up with the deadline
    error after eleven health checks, with a sleep of six seconds after
    each but the last. *)
Theorem NewInstaller_waits_a_minute (fuel : nat) (tag : string)
  (rc : RegistryConfig) (cl : Cluster W) (c : MyHelmClient W) (w : W)
  (before : list Call) (s1 : State W) (image : string) (w2 : W) :
  let s := mkState tag (NewInstaller rc cl c) w before in
  Resolved s image s1 ->
  client_Install c (optionsFor image) (world s1) = (None, w2) ->
  neverHealthy c ->
  (10 < fuel)%nat ->
  fst (Install fuel s) = Returned (Some deadlineExceeded) /\
  trace (snd (Install fuel s)) =
    (trace s1 ++ [ClientInstall (optionsFor image); infoLine]
       ++ pollCalls 10 (6 * Second))%list /\
  countCalls isListReleases (pollCalls 10 (6 * Second)) = 11%nat /\
  totalSleep (pollCalls 10 (6 * Second)) = 60 * Second.
Proof.
  intros s Hres Hinst Hnever Hfuel.
  destruct (Resolved_frame s s1 image Hres) as (Hself & _).
  assert (Hinst' :
    client_Install (client (self s1)) (optionsFor image) (world s1) = (None, w2))
    by (rewrite Hself; exact Hinst).
  rewrite (Install_fresh fuel s s1 image Hres w2 Hinst').
  assert (Hm :
    self (moved s1 w2 [ClientInstall (optionsFor image); infoLine]) =
    NewInstaller rc cl c) by exact Hself.
  destruct (pollLoop_unhealthy 10 fuel 0
              (moved s1 w2 [ClientInstall (optionsFor image); infoLine]))
    as [Ho Ht]; rewrite ?Hm; cbn [NewInstaller maxWait client].
  - exact Hnever.
  - vm_compute. reflexivity.
  - vm_compute. discriminate.
  - vm_compute. discriminate.
  - split; vm_compute; [discriminate | reflexivity].
  - exact Hfuel.
  - unfold afterLoop. cbn [fst snd]. rewrite Ho.
    split; [reflexivity |]. split.
    + rewrite Hm in Ht. cbn [NewInstaller maxWait] in Ht. rewrite Ht.
      change (Z.quot (60 * Second) 10) with (6 * Second).
      unfold moved. cbn [trace]. now rewrite <- app_assoc.
    + split; [apply countCalls_pollCalls |].
      rewrite totalSleep_pollCalls. reflexivity.
Qed.

(** X11: [SetMaxWait] changes the wait to the one given, whichever it
    is, and nothing else: registry configuration, cluster, client, tag,
    world and the calls made are as before.  After [SetMaxWait] with zero
    or less, a fresh install over a tiller that fails its first health
    check gives up at once: one health check, no sleep, the deadline
    error. *)
Theorem SetMaxWait_zero_fails_fast (wait : Z) (s : State W) :
  (fst (SetMaxWait wait s) = Normal tt /\
   maxWait (self (snd (SetMaxWait wait s))) = wait /\
   registryConfig (self (snd (SetMaxWait wait s))) = registryConfig (self s) /\
   cluster (self (snd (SetMaxWait wait s))) = cluster (self s) /\
   client (self (snd (SetMaxWait wait s))) = client (self s) /\
   tillerTag (snd (SetMaxWait wait s)) = tillerTag s /\
   world (snd (SetMaxWait wait s)) = world s /\
   trace (snd (SetMaxWait wait s)) = trace s) /\
  (wait <= 0 ->
   forall (fuel : nat) (s1 : State W) (image : string) (w2 w3 : W) (e : error),
   Resolved (snd (SetMaxWait wait s)) image s1 ->
   client_Install (client (self s)) (optionsFor image) (world s1) = (None, w2) ->
   ListReleases (client (self s)) w2 = (Some e, w3) ->
   (0 < fuel)%nat ->
   Install fuel (snd (SetMaxWait wait s)) =
   (Returned (Some deadlineExceeded),
    moved s1 w3 [ClientInstall (optionsFor image); infoLine; ClientListReleases])).
Proof.
  split; [repeat split |].
  intros Hwait fuel s1 image w2 w3 e Hres Hinst Hlist Hfuel.
  destruct (Resolved_frame _ s1 image Hres) as (Hself & _).
  assert (Hinst' :
    client_Install (client (self s1)) (optionsFor image) (world s1) = (None, w2))
    by (rewrite Hself; exact Hinst).
  rewrite (Install_fresh fuel _ s1 image Hres w2 Hinst').
  destruct fuel as [|fuel]; [lia |].
  unfold afterLoop. cbn [pollLoop]. go. rewrite Hself. go.
  rewrite Hlist. go.
  replace (0 >=? wait) with true by (symmetry; lia).
  go. flatten. reflexivity.
Qed.

End WholeRuns.

(** ** The comparison reads second segments only *)

(** X12: the comparison depends on the second colon-delimited segment of each
    reference and on nothing else: neither the registry and repository
    before the first [':'] nor anything after a second one plays a part. *)
Theorem isNewerVersion_reads_second_segments
  (existingImage existingImage' newImage newImage' ev nv : string) :
  nth_error (strings.Split existingImage ":") 1 = Some ev ->
  nth_error (strings.Split existingImage' ":") 1 = Some ev ->
  nth_error (strings.Split newImage ":") 1 = Some nv ->
  nth_error (strings.Split newImage' ":") 1 = Some nv ->
  isNewerVersion existingImage newImage = isNewerVersion existingImage' newImage'.
Proof.
  intros He He' Hn Hn'.
  rewrite (isNewerVersion_segments _ _ _ _ He Hn).
  rewrite (isNewerVersion_segments _ _ _ _ He' Hn').
  reflexivity.
Qed.

(** ** The whole-run theorems at work on the scripted world *)

Lemma Install_error_kinds_witness :
  fst (Install 20 Scenario.refused) = Returned (Some Scenario.setupRefused) /\
  ((exists w',
      PrivateRegistrySetup "kube-system" serviceAccount
        (cluster (self Scenario.refused)) (registryConfig (self Scenario.refused))
        (world Scenario.refused) = (Some Scenario.setupRefused, w')) \/
   (exists image s1, Resolved Scenario.refused image s1) \/
   (exists st, Reaches Scenario.refused st)).
Proof.
  assert (Hrun : fst (Install 20 Scenario.refused) =
                 Returned (Some Scenario.setupRefused)) by reflexivity.
  split; [exact Hrun |].
  destruct (Install_error_kinds 20 Scenario.refused Scenario.setupRefused Hrun)
    as [(w' & _ & Hsetup & _)
       | [(image & s1 & _ & _ & Hres & _)
         | [(image & s1 & _ & _ & _ & Hres & _)
           | [(image & s1 & _ & _ & _ & _ & _ & _ & Hres & _)
             | (st & _ & _ & _ & _ & _ & Hreach & _)]]]].
  - left. exists w'. exact Hsetup.
  - right. left. exists image, s1. exact Hres.
  - right. left. exists image, s1. exact Hres.
  - right. left. exists image, s1. exact Hres.
  - right. right. exists st. exact Hreach.
Defined.

Lemma Install_panic_kinds_witness :
  fst (Install 20 Scenario.noContainer) = Panicked (IndexOutOfRange 0 0) /\
  (exists image s1, Resolved Scenario.noContainer image s1) /\
  (forall p, fst (Install 20 (Scenario.stuck 1000)) <> Panicked p).
Proof.
  assert (Hrun : fst (Install 20 Scenario.noContainer) =
                 Panicked (IndexOutOfRange 0 0)) by reflexivity.
  split; [exact Hrun |]. split.
  - destruct (proj1 (Install_panic_kinds 20 Scenario.noContainer)
                (IndexOutOfRange 0 0) Hrun)
      as (image & s1 & _ & _ & _ & _ & Hres & _).
    exists image, s1. exact Hres.
  - exact (proj2 (Install_panic_kinds 20 (Scenario.stuck 1000)) _ _ Scenario.absent
             (Resolved_public (Scenario.stuck 1000) eq_refl) eq_refl).
Defined.

Lemma Install_success_kinds_witness :
  fst (Install 20 Scenario.current) = Returned None /\
  ((exists st, Reaches Scenario.current st) \/
   (exists image s1, Resolved Scenario.current image s1)).
Proof.
  assert (Hrun : fst (Install 20 Scenario.current) = Returned None)
    by reflexivity.
  split; [exact Hrun |].
  destruct (Install_success_kinds 20 Scenario.current Hrun)
    as [(st & _ & _ & _ & _ & Hreach & _)
       | (image & s1 & _ & _ & _ & _ & _ & _ & Hres & _)].
  - left. exists st. exact Hreach.
  - right. exists image, s1. exact Hres.
Defined.

Lemma pollLoop_within_budget_witness :
  exists calls,
    trace (snd (pollLoop 30 0 (Scenario.stuck 1005))) =
      (trace (Scenario.stuck 1005) ++ calls)%list /\
    (forall c, In c calls -> c = ClientListReleases \/ c = TimeSleep 100) /\
    0 <= totalSleep calls < 1105 /\
    (countCalls isListReleases calls <= 20)%nat /\
    (fst (pollLoop 30 0 (Scenario.stuck 1005)) =
       Returned (Some deadlineExceeded) ->
     1005 <= totalSleep calls).
Proof.
  refine (pollLoop_within_budget 30 (Scenario.stuck 1005) _ _).
  - cbn. lia.
  - vm_compute. discriminate.
Defined.

Lemma Install_terminates_witness :
  Install 25 (Scenario.stuck 1000) = Install 20 (Scenario.stuck 1000) /\
  ((exists final, fst (Install 25 (Scenario.stuck 1000)) = Returned final) \/
   (exists p, fst (Install 25 (Scenario.stuck 1000)) = Panicked p)).
Proof.
  refine (Install_terminates 25 (Scenario.stuck 1000) (or_intror (conj _ _)) _).
  - cbn. lia.
  - vm_compute. discriminate.
  - lia.
Defined.

Lemma Install_never_ends_below_ten_witness :
  fst (Install 50 (Scenario.stuck 7)) = OutOfFuel.
Proof.
  refine (proj1 (Install_never_ends_below_ten 50 (Scenario.stuck 7) _ _
    Scenario.absent (Resolved_public (Scenario.stuck 7) eq_refl) eq_refl _ _)).
  - intros w. cbn. discriminate.
  - cbn. lia.
Defined.

Lemma Install_fresh_healthy_witness :
  fst (Install 1 (Scenario.healthy 0)) = Returned None /\
  fst (Install 1 (Scenario.healthy (-5))) = Returned None.
Proof.
  split.
  - refine (f_equal fst (Install_fresh_healthy 1 (Scenario.healthy 0) _ _ _ _
      (Resolved_public (Scenario.healthy 0) eq_refl) eq_refl eq_refl _)). lia.
  - refine (f_equal fst (Install_fresh_healthy 1 (Scenario.healthy (-5)) _ _ _ _
      (Resolved_public (Scenario.healthy (-5)) eq_refl) eq_refl eq_refl _)). lia.
Defined.

Lemma NewInstaller_waits_a_minute_witness :
  fst (Install 11 Scenario.defaults) = Returned (Some deadlineExceeded).
Proof.
  refine (proj1 (NewInstaller_waits_a_minute 11 "2.14.0" (mkRegistryConfig "")
    Scenario.theCluster Scenario.deadClient Scenario.absent [] _ _ Scenario.absent
    (Resolved_public Scenario.defaults eq_refl) eq_refl _ _)).
  - intros w. cbn. discriminate.
  - lia.
Defined.

Lemma SetMaxWait_zero_fails_fast_witness :
  maxWait (self (snd (SetMaxWait 90 (Scenario.stuck 1000)))) = 90 /\
  fst (Install 1 (snd (SetMaxWait 0 (Scenario.stuck 1000)))) =
  Returned (Some deadlineExceeded).
Proof.
  split.
  - exact (proj1 (proj2 (proj1
      (SetMaxWait_zero_fails_fast 90 (Scenario.stuck 1000))))).
  - refine (f_equal fst (proj2 (SetMaxWait_zero_fails_fast 0 (Scenario.stuck 1000))
      _ 1%nat _ _ Scenario.absent Scenario.absent Scenario.notReady
      (Resolved_public (snd (SetMaxWait 0 (Scenario.stuck 1000))) eq_refl)
      eq_refl eq_refl _)); lia.
Defined.

Lemma isNewerVersion_reads_second_segments_witness :
  isNewerVersion "gcr.io/kubernetes-helm/tiller:2.13.0"
                 "gcr.io/kubernetes-helm/tiller:2.14.0" =
  isNewerVersion "registry.local/mirror:2.13.0:old"
                 "tiller:2.14.0".
Proof.
  exact (isNewerVersion_reads_second_segments
           "gcr.io/kubernetes-helm/tiller:2.13.0" "registry.local/mirror:2.13.0:old"
           "gcr.io/kubernetes-helm/tiller:2.14.0" "tiller:2.14.0"
           "2.13.0" "2.14.0" eq_refl eq_refl eq_refl eq_refl).
Defined.
